(** * Verification of the question-answering API (api/app.py) and of the
      metadata compaction script (api/faiss_index/compress.py)

    The development is a shallow embedding of the two Python modules.
    Python values are modelled by [pyval], dictionaries by stdpp's [gmap]
    with string keys, exceptions by an explicit [result] monad, the
    process-wide globals by a record that is passed to the handler, and the
    functions imported from [rag] by the fields of the class [Rag]. *)

From Stdlib Require Import ZArith QArith Qcanon Ascii String Lia.
From stdpp Require Import base strings gmap list.

Set Warnings "-register-all".
#[local] Open Scope string_scope.

(** ** Python string primitives

    A Python [str] is modelled by a Rocq [string]; one [ascii] stands for
    one code point, so [String.length] is Python's [len]. *)

Module PyStr.

(** [s.startswith(p)] *)
Definition startswith (s p : string) : bool := String.prefix p s.

(** [s[:n]] *)
Fixpoint slice_to (n : nat) (s : string) : string :=
  match n, s with
  | S n', String c r => String c (slice_to n' r)
  | _, _ => EmptyString
  end.

(** [s[n:]] *)
Fixpoint slice_from (n : nat) (s : string) : string :=
  match n, s with
  | S n', String _ r => slice_from n' r
  | _, _ => s
  end.

(** [c in s] for a single character [c] *)
Fixpoint contains (c : ascii) (s : string) : bool :=
  match s with
  | EmptyString => false
  | String a r => Ascii.eqb a c || contains c r
  end.

(** The split performed by [s.rsplit(sep, 1)]: [Some (before, after)] around
    the last occurrence of [sep], [None] when [sep] does not occur. *)
Fixpoint rsplit_last (sep : ascii) (s : string) : option (string * string) :=
  match s with
  | EmptyString => None
  | String c r =>
      match rsplit_last sep r with
      | Some (a, b) => Some (String c a, b)
      | None => if Ascii.eqb c sep then Some (EmptyString, r) else None
      end
  end.

(** [s.rsplit(sep, 1)] *)
Definition rsplit1 (sep : ascii) (s : string) : list string :=
  match rsplit_last sep s with
  | Some (a, b) => [a; b]
  | None => [s]
  end.

(** [s.replace(a, b)] for single characters [a] and [b] *)
Fixpoint replace (a b : ascii) (s : string) : string :=
  match s with
  | EmptyString => EmptyString
  | String c r => String (if Ascii.eqb c a then b else c) (replace a b r)
  end.

(** [c.isspace()] on the code points below 256 *)
Definition isspace (c : ascii) : bool :=
  let n := nat_of_ascii c in
  ((9 <=? n)%nat && (n <=? 13)%nat) || ((28 <=? n)%nat && (n <=? 32)%nat)
  || (n =? 133)%nat || (n =? 160)%nat.

Fixpoint lstrip (s : string) : string :=
  match s with
  | EmptyString => EmptyString
  | String c r => if isspace c then lstrip r else s
  end.

Fixpoint rstrip (s : string) : string :=
  match s with
  | EmptyString => EmptyString
  | String c r =>
      match rstrip r with
      | EmptyString => if isspace c then EmptyString else String c EmptyString
      | r' => String c r'
      end
  end.

(** [s.strip()] *)
Definition strip (s : string) : string := rstrip (lstrip s).

(** The character at index [i], when there is one. *)
Definition char_at (i : nat) (s : string) : option ascii := String.get i s.

(** The last character, when there is one. *)
Fixpoint last_char (s : string) : option ascii :=
  match s with
  | EmptyString => None
  | String c EmptyString => Some c
  | String _ r => last_char r
  end.

(** [s.endswith(c)] for a single character [c] *)
Definition endswith_char (s : string) (c : ascii) : bool :=
  match last_char s with
  | Some a => Ascii.eqb a c
  | None => false
  end.

(** The string begins, or ends, with a character that [strip] removes. *)
Definition leading_space (s : string) : bool :=
  match s with
  | EmptyString => false
  | String c _ => isspace c
  end.

Definition trailing_space (s : string) : bool :=
  match last_char s with
  | Some c => isspace c
  | None => false
  end.

End PyStr.

Definition space : ascii := " "%char.
Definition newline : ascii := ascii_of_nat 10.

(** ** The fallback content snippet (app.py, line 97)

    [cleaned_content_snippet[:150].rsplit(' ', 1)[0] + '...'
       if len(cleaned_content_snippet) > 150 else cleaned_content_snippet] *)

(** [cleaned[:150].rsplit(' ', 1)[0]] *)
Definition truncated (cleaned : string) : string :=
  hd EmptyString (PyStr.rsplit1 space (PyStr.slice_to 150 cleaned)).

Definition snippet (cleaned : string) : string :=
  if (150 <? String.length cleaned)%nat
  then truncated cleaned +:+ "..."
  else cleaned.

(** A cut of [s] at position [k] splits a word when the characters on both
    sides of the cut exist and neither is a space. *)
Definition splits_mid_word (s : string) (k : nat) : bool :=
  match k with
  | O => false
  | S k' =>
      match PyStr.char_at k' s, PyStr.char_at k s with
      | Some a, Some b => negb (Ascii.eqb a space) && negb (Ascii.eqb b space)
      | _, _ => false
      end
  end.

(** [n] copies of the character [c]. *)
Fixpoint repeat_char (c : ascii) (n : nat) : string :=
  match n with
  | O => EmptyString
  | S n' => String c (repeat_char c n')
  end.

(** ** Python values, exceptions and responses *)

(** The values that travel through the handler: JSON request bodies, the
    retrieved documents and the JSON response bodies. *)
Inductive pyval : Type :=
  | PNone
  | PBool (b : bool)
  | PInt (z : Z)
  | PFloat (q : Qc)
  | PStr (s : string)
  | PList (l : list pyval)
  | PDict (d : gmap string pyval).

(** A Python dictionary with string keys. *)
Abbreviation dict := (gmap string pyval).

(** Python truthiness, as tested by [if v:] and [not v]. *)
Definition truthy (v : pyval) : bool :=
  match v with
  | PNone => false
  | PBool b => b
  | PInt z => negb (z =? 0)%Z
  | PFloat q => negb (bool_decide (q = 0%Qc))
  | PStr s => negb (String.eqb s "")
  | PList l => match l with [] => false | _ :: _ => true end
  | PDict d => negb (size d =? 0)%nat
  end.

(** [d.get(k)]: the value, or [None] when the key is absent. *)
Definition dict_get (d : dict) (k : string) : pyval :=
  default PNone (d !! k).

(** [d.get(k, dflt)] *)
Definition dict_get_default (d : dict) (k : string) (dflt : pyval) : pyval :=
  default dflt (d !! k).

(** An instance of a subclass of [Exception]: its class name, the text that
    [str(e)] (and so an f-string) produces, and its traceback. *)
Record exn := mk_exn {
  exc_type : string;
  exc_str : string;
  exc_traceback : list string }.

Definition KeyError (key : string) : exn :=
  mk_exn "KeyError" ("'" +:+ key +:+ "'") [].

Definition AttributeError (msg : string) : exn :=
  mk_exn "AttributeError" msg [].

(** The outcome of a call that either returns or raises. *)
Inductive result (A : Type) : Type :=
  | Ok (a : A)
  | Raise (e : exn).
Arguments Ok {A} a.
Arguments Raise {A} e.

Definition bind {A B : Type} (m : result A) (k : A -> result B) : result B :=
  match m with
  | Ok a => k a
  | Raise e => Raise e
  end.

Declare Scope result_scope.
Delimit Scope result_scope with result.
Notation "'let!' x ':=' m 'in' k" := (bind m (fun x => k))
  (at level 10, x name, m at level 100, k at level 200) : result_scope.

(** [type(v).__name__] *)
Definition type_name (v : pyval) : string :=
  match v with
  | PNone => "NoneType"
  | PBool _ => "bool"
  | PInt _ => "int"
  | PFloat _ => "float"
  | PStr _ => "str"
  | PList _ => "list"
  | PDict _ => "dict"
  end.

(** The exception of [v.attr] when the type of [v] has no attribute [attr]:
    its text names the type. *)
Definition no_attribute (v : pyval) (attr : string) : exn :=
  AttributeError
    ("'" +:+ type_name v +:+ "' object has no attribute '" +:+ attr +:+ "'").

(** The exception of [v[k]] for a string [k] when [v] is not a dictionary. *)
Definition not_subscriptable (v : pyval) : exn :=
  mk_exn "TypeError"
    match v with
    | PStr _ => "string indices must be integers, not 'str'"
    | PList _ => "list indices must be integers or slices, not str"
    | _ => "'" +:+ type_name v +:+ "' object is not subscriptable"
    end [].

(** [v.get(k)]: the method of a dictionary; every other JSON value has no
    attribute [get]. *)
Definition py_get (v : pyval) (k : string) : result pyval :=
  match v with
  | PDict d => Ok (dict_get d k)
  | _ => Raise (no_attribute v "get")
  end.

(** [d[k]]: raises [KeyError] when the key is absent. *)
Definition dict_getitem (d : dict) (k : string) : result pyval :=
  match d !! k with
  | Some v => Ok v
  | None => Raise (KeyError k)
  end.

(** What a Flask view returns: [jsonify(body), status]. *)
Record response := mk_response {
  body : dict;
  status : Z }.

(** [jsonify(d)] serialises the dictionary; the response carries it as is. *)
Definition jsonify (d : dict) : dict := d.

(** The body [{"answer": a, "links": links}]. *)
Definition answer_body (a : string) (links : list pyval) : dict :=
  <["answer" := PStr a]> (<["links" := PList links]> ∅).

(** The body [{"error": msg}]. *)
Definition error_body (msg : string) : dict :=
  <["error" := PStr msg]> ∅.

(** The [links] entry of a response body, when it is a list. *)
Definition links_of (b : dict) : option (list pyval) :=
  match b !! "links" with
  | Some (PList l) => Some l
  | _ => None
  end.

(** The [answer] entry of a response body, when it is a string. *)
Definition answer_of (b : dict) : option string :=
  match b !! "answer" with
  | Some (PStr s) => Some s
  | _ => None
  end.

(** ** The functions imported from rag.py

    app.py imports these functions from the module [rag]; they appear here
    as the fields of a class, each with the arguments the handler passes and
    a result that is a value or a raised exception. The carrier types of the
    index, the metadata table, an embedding vector and a chat prompt are
    fields as well. [py_repr] is [str(v)] for a value that is not a string. *)
Class Rag := {
  faiss_index : Type;
  metadata_table : Type;
  embedding : Type;
  messages : Type;
  load_index_and_metadata : result (option faiss_index * option metadata_table);
  get_embedding : pyval -> result embedding;
  retrieve_and_prioritize_documents :
    embedding -> faiss_index -> metadata_table -> Z -> Z -> result (list dict);
  build_prompt : pyval -> list dict -> option string -> result messages;
  query_chat_completion : messages -> result string;
  clean_json_response : string -> list dict -> result pyval;
  clean_content_for_prompt : pyval -> result string;
  py_repr : pyval -> string }.

(** ** api/app.py *)

Module App.
Section Handler.
Context `{R : Rag}.
#[local] Open Scope result_scope.

(** The module globals [rag_index] and [rag_metadata]; [None] is Python's
    [None]. *)
Record globals := mk_globals {
  rag_index : option faiss_index;
  rag_metadata : option metadata_table }.

(** The Flask request: [request.is_json] and the outcome of
    [request.get_json()], which returns the parsed body, whatever JSON value
    it is, or raises (BadRequest on a body that does not parse). *)
Record request := mk_request {
  is_json : bool;
  get_json : result pyval }.

(** [str(v)], as an f-string formats [v]. *)
Definition py_str (v : pyval) : string :=
  match v with
  | PStr s => s
  | _ => py_repr v
  end.

(** Lines 48-54: the MIME type guessed from the head of the payload. *)
Definition mime_type (image_base64_data : string) : string :=
  if PyStr.startswith image_base64_data "/9j/" then "image/jpeg"
  else if PyStr.startswith image_base64_data "iVBORw0KGgo" then "image/png"
  else if PyStr.startswith image_base64_data "UklGR" then "image/webp"
  else "application/octet-stream".

(** Lines 46-59: the value of [image_url_for_llm] once the image of the
    request has been inspected. A truthy value that is not a string has no
    [startswith] method. *)
Definition image_url_for_llm (image_base64_data : pyval) : result (option string) :=
  if truthy image_base64_data then
    match image_base64_data with
    | PStr s =>
        let mime := mime_type s in
        if PyStr.startswith s "http://" || PyStr.startswith s "https://"
        then Ok (Some s)
        else Ok (Some ("data:" +:+ mime +:+ ";base64," +:+ s))
    | _ => Raise (no_attribute image_base64_data "startswith")
    end
  else Ok None.

(** An entry of [fallback_links]: [{"url": doc["url"], "text": snippet}]. *)
Record fallback_link := mk_link {
  link_url : pyval;
  link_text : string }.

Definition link_dict (l : fallback_link) : pyval :=
  PDict (<["url" := link_url l]> (<["text" := PStr (link_text l)]> ∅)).

(** Lines 95-98: the loop that fills [fallback_links]. *)
Fixpoint fallback_links_loop (docs : list dict) (fallback_links : list fallback_link)
  : result (list fallback_link) :=
  match docs with
  | [] => Ok fallback_links
  | doc :: rest =>
      let! cleaned_content_snippet :=
        clean_content_for_prompt (dict_get_default doc "content" (PStr "")) in
      let snippet := snippet cleaned_content_snippet in
      let! url := dict_getitem doc "url" in
      fallback_links_loop rest (fallback_links ++ [mk_link url snippet])
  end.

Definition dquote : string := String (ascii_of_nat 34) EmptyString.
Definition nl : string := String newline EmptyString.

Definition fallback_intro : string :=
  "I couldn't generate a specific answer from the provided context. However, here's some potentially relevant information:" +:+ nl.

(** Lines 101-102: one line of the answer per link. *)
Definition cite_links (text : string) (fallback_links : list fallback_link) : string :=
  fold_left
    (fun acc l =>
       acc +:+ "- " +:+ dquote +:+ link_text l +:+ dquote
           +:+ " (Source: " +:+ py_str (link_url l) +:+ ")" +:+ nl)
    fallback_links text.

(** Lines 100-104. *)
Definition fallback_answer_text (fallback_links : list fallback_link) : string :=
  match fallback_links with
  | _ :: _ => cite_links fallback_intro fallback_links
  | [] => fallback_intro +:+ "No relevant specific snippets found to cite."
  end.

(** Lines 92-106: the response synthesized when the model's answer is
    malformed or empty. *)
Definition fallback_response (relevant_docs : list dict) : result response :=
  let! fallback_links :=
    fallback_links_loop (take (min 2 (length relevant_docs)) relevant_docs) [] in
  Ok (mk_response
        (jsonify (answer_body (PyStr.strip (fallback_answer_text fallback_links))
                              (map link_dict fallback_links)))
        200).

(** Line 90: [not answer_data or not answer_data.get("answer")]. A truthy
    value that is not a dictionary has no [get] method. *)
Definition answer_missing (answer_data : pyval) : result bool :=
  if negb (truthy answer_data) then Ok true
  else match answer_data with
       | PDict d => Ok (negb (truthy (dict_get d "answer")))
       | _ => Raise (no_attribute answer_data "get")
       end.

(** Lines 108-110: the answer is normalised in place and the dictionary
    returned by [clean_json_response] is sent as it is. *)
Definition normalised_response (answer_data : pyval) : result response :=
  match answer_data with
  | PDict d =>
      let! a := dict_getitem d "answer" in
      match a with
      | PStr s =>
          Ok (mk_response
                (jsonify (<["answer" := PStr (PyStr.strip (PyStr.replace newline space s))]> d))
                200)
      | _ => Raise (no_attribute a "replace")
      end
  | _ => Raise (not_subscriptable answer_data)
  end.

(** Lines 88-110. The first component is what is printed to stderr. *)
Definition post_process (raw_llm_response : string) (relevant_docs : list dict)
  : list string * result response :=
  match clean_json_response raw_llm_response relevant_docs with
  | Raise e => ([], Raise e)
  | Ok answer_data =>
      match answer_missing answer_data with
      | Raise e => ([], Raise e)
      | Ok true =>
          (["WARNING: LLM returned malformed or empty answer. Raw: " +:+ raw_llm_response],
           fallback_response relevant_docs)
      | Ok false => ([], normalised_response answer_data)
      end
  end.

Definition error_response (msg : string) (code : Z) : response :=
  mk_response (jsonify (error_body msg)) code.

Definition answer_response (answer : string) (links : list pyval) (code : Z) : response :=
  mk_response (jsonify (answer_body answer links)) code.

(** Lines 39-110: what the view function does with the question and the
    image it has read from the body. *)
Definition answer_question (g : globals) (question image_base64_data : pyval)
  : list string * result response :=
    if negb (truthy question) then
      ([], Ok (error_response "Missing 'question' in request body" 400))
    else
      match rag_index g, rag_metadata g with
      | Some index, Some metadata =>
          match image_url_for_llm image_base64_data with
          | Raise e => ([], Raise e)
          | Ok image_url =>
              match get_embedding question with
              | Raise e =>
                  (["Error in embedding generation: " +:+ exc_str e],
                   Ok (answer_response
                         ("Error generating question embedding: " +:+ exc_str e) [] 500))
              | Ok q_embed =>
                  match retrieve_and_prioritize_documents q_embed index metadata 750 5 with
                  | Raise e =>
                      (["Error in document retrieval: " +:+ exc_str e],
                       Ok (answer_response
                             ("Error retrieving relevant information: " +:+ exc_str e) [] 500))
                  | Ok [] =>
                      ([], Ok (answer_response
                                 "Sorry, I couldn't find any relevant information in the knowledge base."
                                 [] 200))
                  | Ok relevant_docs =>
                      match (let! messages_for_llm :=
                               build_prompt question relevant_docs image_url in
                             query_chat_completion messages_for_llm) with
                      | Raise e =>
                          (["Error during LLM interaction: " +:+ exc_str e],
                           Ok (answer_response
                                 ("Error communicating with AI model: " +:+ exc_str e) [] 500))
                      | Ok raw_llm_response => post_process raw_llm_response relevant_docs
                      end
                  end
              end
          end
      | _, _ =>
          ([], Ok (answer_response
                     "Server is still initializing. Please try again in a moment." [] 503))
      end.

(** Lines 27-110: the view function of [POST /api/]. It returns the lines
    printed to stderr and either the response or the exception that leaves
    the function. An exception of [get_json], and the one of [data.get] on a
    body that is not an object, leave it before the question is tested. *)
Definition answer_question_api (g : globals) (request : request)
  : list string * result response :=
  if negb (is_json request) then
    ([], Ok (error_response "Request must be JSON" 400))
  else
    match get_json request with
    | Raise e => ([], Raise e)
    | Ok data =>
        match py_get data "question" with
        | Raise e => ([], Raise e)
        | Ok question =>
            match py_get data "image" with
            | Raise e => ([], Raise e)
            | Ok image_base64_data => answer_question g question image_base64_data
            end
        end
    end.

(** Lines 112-118: what happens when the module is imported. The process
    either goes on to serve requests with the loaded globals or exits. *)
Inductive process :=
  | Serving (g : globals)
  | Exited (code : Z).

Definition startup : list string * process :=
  match load_index_and_metadata with
  | Ok (index, metadata) =>
      (["RAG assets loaded successfully."], Serving (mk_globals index metadata))
  | Raise e =>
      (["FATAL ERROR: Failed to load RAG assets on startup: " +:+ exc_str e], Exited 1)
  end.

(** One request handed to the process. The view function has no [global]
    statement and no call of [sys.exit]: whatever it returns or raises (an
    exception that leaves it is answered by Flask), the process goes on with
    the globals it had. A process that has exited handles nothing. *)
Definition serve (p : process) (request : request)
  : process * option (list string * result response) :=
  match p with
  | Serving g => (Serving g, Some (answer_question_api g request))
  | Exited code => (Exited code, None)
  end.

End Handler.
End App.

(** ** api/faiss_index/compress.py *)

Module Compress.
Section Script.

(** The values stored in a document are left abstract: the script only
    looks at the keys. A document is a JSON object. *)
Context {V : Type}.

Abbreviation document := (gmap string V).

(** What lines 17-29 obtain from the input file: the parsed metadata, or one
    of the three failures the script distinguishes. [Loaded] is a file that
    parses to a list of JSON objects, the shape the docstring gives the
    metadata file; other JSON values are outside this model. *)
Inductive load_outcome :=
  | Loaded (metadata : list document)
  | FileNotFoundError
  | JSONDecodeError (e : exn)
  | LoadFailed (e : exn).

(** What the script prints, with the numbers it reports. *)
Inductive report :=
  | RLoading
  | RLoaded (n : nat)
  | RRemoved (modified_count : nat)
  | RSaving
  | RSaved
  | RError (msg : string).

(** Lines 31-35: the loop over the documents, which deletes the key
    [embedding] where it is present and counts the documents it changed. *)
Fixpoint strip_embeddings (metadata : list document) (modified_count : nat)
  : list document * nat :=
  match metadata with
  | [] => ([], modified_count)
  | doc :: rest =>
      if bool_decide (is_Some (doc !! "embedding")) then
        let '(rest', n) := strip_embeddings rest (S modified_count) in
        (delete "embedding" doc :: rest', n)
      else
        let '(rest', n) := strip_embeddings rest modified_count in
        (doc :: rest', n)
  end.

(** What lines 41-58 do with the output file: the block completes, or an
    exception is raised before or after [json.dump] has written the list. *)
Inductive save_outcome :=
  | SaveDone
  | SaveFailed (dumped : bool) (e : exn).

(** The file system as the script meets it: opening and parsing a path,
    and creating the directory of a path and writing a list to it. *)
Record file_system := mk_fs {
  fs_load : string -> load_outcome;
  fs_save : string -> list document -> save_outcome }.

(** The state the script leaves behind: its exit code when it calls
    [sys.exit], the list it wrote to the output file, and its reports (the
    two lines with the file sizes are left out). *)
Record run := mk_run {
  exit_code : option Z;
  written : option (list document);
  reports : list report }.

(** Lines 6-58. *)
Definition remove_embeddings_from_metadata_json
    (fs : file_system) (input_filepath output_filepath : string) : run :=
  match fs_load fs input_filepath with
  | Loaded metadata =>
      let '(metadata', modified_count) := strip_embeddings metadata 0 in
      let log := [RLoading; RLoaded (length metadata); RRemoved modified_count; RSaving] in
      match fs_save fs output_filepath metadata' with
      | SaveDone => mk_run None (Some metadata') (log ++ [RSaved])
      | SaveFailed dumped e =>
          mk_run (Some 1%Z) (if dumped then Some metadata' else None)
                 (log ++ [RError ("An error occurred while saving the file: " +:+ exc_str e)])
      end
  | FileNotFoundError =>
      mk_run (Some 1%Z) None
             [RLoading; RError ("Error: Input file not found at " +:+ input_filepath)]
  | JSONDecodeError e =>
      mk_run (Some 1%Z) None
             [RLoading;
              RError ("Error: Could not decode JSON from " +:+ input_filepath
                      +:+ ". Is it valid JSON? Error: " +:+ exc_str e)]
  | LoadFailed e =>
      mk_run (Some 1%Z) None
             [RLoading; RError ("An unexpected error occurred while loading: " +:+ exc_str e)]
  end.

End Script.
Arguments load_outcome V : clear implicits.
Arguments file_system V : clear implicits.
Arguments run V : clear implicits.
End Compress.

(** ** The main block of compress.py *)

Module CompressMain.
Section Main.
Context {V : Type}.

(** [os.path.join(a, b)] of posixpath, for two components. *)
Definition join (a b : string) : string :=
  if PyStr.startswith b "/" then b
  else if String.eqb a "" || PyStr.endswith_char a "/"%char then a +:+ b
  else a +:+ "/" +:+ b.

(** Lines 61-78: the script run on the files next to it; [current_dir] is
    the directory of the script. *)
Definition main (fs : Compress.file_system V) (current_dir : string)
  : Compress.run V :=
  let input_json_file := join current_dir "metadatas.json" in
  let output_json_file := join current_dir "metadata.json" in
  Compress.remove_embeddings_from_metadata_json fs input_json_file output_json_file.

(** The number of documents that carry the key [embedding]. *)
Definition with_embedding (metadata : list (gmap string V)) : nat :=
  length (filter (fun doc => is_Some (doc !! "embedding")) metadata).

End Main.
End CompressMain.

(** ** The stages of a request *)

Module Pipeline.
Section Stages.
Context `{R : Rag}.
Import App.

(** What [data.get(k)] of lines 36-37 reads from the body of the request;
    [None] when the body could not be parsed or is not an object, in which
    case the handler does not get as far as using the value. *)
Definition read (req : request) (k : string) : pyval :=
  match get_json req with
  | Ok data =>
      match py_get data k with
      | Ok v => v
      | Raise _ => PNone
      end
  | Raise _ => PNone
  end.

(** [question] as line 36 reads it. *)
Definition question_of (req : request) : pyval := read req "question".

(** [image_base64_data] as line 37 reads it. *)
Definition image_of (req : request) : pyval := read req "image".

(** Line 42: the globals have not been set. *)
Definition not_ready (g : globals) : Prop :=
  rag_index g = None \/ rag_metadata g = None.

(** The request has passed validation and the readiness check and its image
    has been accepted: the handler is about to call [get_embedding]. *)
Record enters_pipeline (g : globals) (req : request)
    (index : faiss_index) (metadata : metadata_table)
    (image_url : option string) : Prop := mk_enters {
  ep_json : is_json req = true;
  ep_question : truthy (question_of req) = true;
  ep_index : rag_index g = Some index;
  ep_metadata : rag_metadata g = Some metadata;
  ep_image : image_url_for_llm (image_of req) = Ok image_url }.

(** The three stages whose exceptions the handler catches. *)
Inductive stage := Embedding | Retrieval | Completion.

(** The retrieval step of the request returns [docs]. *)
Inductive retrieves (g : globals) (req : request) : list dict -> Prop :=
  | retrieves_docs index metadata image_url q_embed docs :
      enters_pipeline g req index metadata image_url ->
      get_embedding (question_of req) = Ok q_embed ->
      retrieve_and_prioritize_documents q_embed index metadata 750 5 = Ok docs ->
      retrieves g req docs.

(** The prompt is built and the model answers with [raw]. *)
Definition completes (req : request) (docs : list dict)
    (image_url : option string) : result string :=
  bind (build_prompt (question_of req) docs image_url) query_chat_completion.

(** Stage [s] of the request raises [e]: the earlier stages returned. *)
Inductive stage_fails (g : globals) (req : request) : stage -> exn -> Prop :=
  | fails_embedding index metadata image_url e :
      enters_pipeline g req index metadata image_url ->
      get_embedding (question_of req) = Raise e ->
      stage_fails g req Embedding e
  | fails_retrieval index metadata image_url q_embed e :
      enters_pipeline g req index metadata image_url ->
      get_embedding (question_of req) = Ok q_embed ->
      retrieve_and_prioritize_documents q_embed index metadata 750 5 = Raise e ->
      stage_fails g req Retrieval e
  | fails_completion index metadata image_url q_embed docs e :
      enters_pipeline g req index metadata image_url ->
      get_embedding (question_of req) = Ok q_embed ->
      retrieve_and_prioritize_documents q_embed index metadata 750 5 = Ok docs ->
      docs <> [] ->
      completes req docs image_url = Raise e ->
      stage_fails g req Completion e.

(** The text that precedes the exception in the answer of a failed stage. *)
Definition stage_answer (s : stage) : string :=
  match s with
  | Embedding => "Error generating question embedding: "
  | Retrieval => "Error retrieving relevant information: "
  | Completion => "Error communicating with AI model: "
  end.

(** The text that precedes the exception on stderr. *)
Definition stage_log (s : stage) : string :=
  match s with
  | Embedding => "Error in embedding generation: "
  | Retrieval => "Error in document retrieval: "
  | Completion => "Error during LLM interaction: "
  end.

(** A response is a success when its status is 2xx. *)
Definition is_2xx (resp : response) : Prop := (200 <= status resp < 300)%Z.

(** The response has a [links] array of exactly [n] entries. *)
Definition has_links (n : nat) (resp : response) : Prop :=
  exists l, links_of (body resp) = Some l /\ length l = n.

(** The answer of the response contains the text of the exception [e]. *)
Definition exposes (e : exn) (resp : response) : Prop :=
  exc_str e <> ""
  /\ exists before after,
       answer_of (body resp) = Some (before +:+ exc_str e +:+ after).

(** The body of the request is an object whose question is missing or
    empty. *)
Definition no_question (req : request) : Prop :=
  exists d,
    get_json req = Ok (PDict d)
    /\ (d !! "question" = None \/ d !! "question" = Some (PStr "")).


(** The document carries a url. *)
Definition has_url (doc : dict) : Prop := is_Some (doc !! "url").

(** Cleaning the content of the document returns. *)
Definition cleans (doc : dict) : Prop :=
  exists cleaned,
    clean_content_for_prompt (dict_get_default doc "content" (PStr "")) = Ok cleaned.

(** The fallback link [l] cites the document: its url is the one of the
    document and its text the snippet of the cleaned content. *)
Definition cites (doc : dict) (l : fallback_link) : Prop :=
  doc !! "url" = Some (link_url l)
  /\ exists cleaned,
       clean_content_for_prompt (dict_get_default doc "content" (PStr "")) = Ok cleaned
       /\ link_text l = snippet cleaned.

(** Both globals are set. *)
Definition is_ready (g : globals) : Prop :=
  is_Some (rag_index g) /\ is_Some (rag_metadata g).

(** The line of the fallback answer that cites one link (line 102). *)
Definition citation_line (l : fallback_link) : string :=
  "- " +:+ dquote +:+ link_text l +:+ dquote
       +:+ " (Source: " +:+ py_str (link_url l) +:+ ")" +:+ nl.

(** The lines of the links, one after the other. *)
Fixpoint citation_lines (links : list fallback_link) : string :=
  match links with
  | [] => ""
  | l :: rest => citation_line l +:+ citation_lines rest
  end.

End Stages.

(** The responses of lines 44 and 78. *)
Abbreviation initializing_response :=
  (App.answer_response
     "Server is still initializing. Please try again in a moment." [] 503).

Abbreviation no_information_response :=
  (App.answer_response
     "Sorry, I couldn't find any relevant information in the knowledge base." [] 200).

End Pipeline.

(** ** A stand-in for rag.py with canned results *)

Module Demo.

Definition doc (url content : string) : dict :=
  <["url" := PStr url]> (<["content" := PStr content]> ∅).

Definition TypeError (msg : string) : exn := mk_exn "TypeError" msg [].

(** Every call returns the result given for it; cleaning a content string
    returns it unchanged. *)
Definition canned
    (loaded : result (option unit * option unit))
    (embedded : result unit) (retrieved : result (list dict))
    (completed : result string) (parsed : result pyval) : Rag :=
  {| faiss_index := unit;
     metadata_table := unit;
     embedding := unit;
     messages := unit;
     load_index_and_metadata := loaded;
     get_embedding := fun _ => embedded;
     retrieve_and_prioritize_documents := fun _ _ _ _ _ => retrieved;
     build_prompt := fun _ _ _ => Ok tt;
     query_chat_completion := fun _ => completed;
     clean_json_response := fun _ _ => parsed;
     clean_content_for_prompt := fun v =>
       match v with
       | PStr s => Ok s
       | _ => Raise (TypeError "expected string or bytes-like object")
       end;
     py_repr := fun _ => "<object>" |}.

(** The globals once both assets are loaded, and before they are. *)
Definition ready {l e r c p} : @App.globals (canned l e r c p) :=
  @App.mk_globals (canned l e r c p) (Some tt) (Some tt).

Definition initializing {l e r c p} : @App.globals (canned l e r c p) :=
  @App.mk_globals (canned l e r c p) None None.

Definition ask (question : string) : App.request :=
  App.mk_request true (Ok (PDict (<["question" := PStr question]> ∅))).

(** rag.py when every call returns: the retrieval gives [docs] and
    [clean_json_response] gives [parsed]. *)
Definition rag_up (docs : list dict) (parsed : pyval) : Rag :=
  canned (Ok (Some tt, Some tt)) (Ok tt) (Ok docs) (Ok "not json") (Ok parsed).

(** rag.py when the embedding service raises [e]. *)
Definition rag_embedding_down (e : exn) : Rag :=
  canned (Ok (Some tt, Some tt)) (Raise e) (Ok []) (Ok "") (Ok PNone).

Definition connection_error : exn :=
  mk_exn "ConnectionError"
         "HTTPSConnectionPool(host='aiproxy.internal', port=443): Max retries exceeded"
         ["Traceback (most recent call last):"].

(** A request with a question and an image value. *)
Definition ask_with_image (question : string) (image : pyval) : App.request :=
  App.mk_request true
    (Ok (PDict (<["question" := PStr question]> (<["image" := image]> ∅)))).

(** A JSON request with the given body. *)
Definition post (body : pyval) : App.request := App.mk_request true (Ok body).

(** An output of [clean_json_response] with an answer of two lines, two
    links and a further key. *)
Definition parsed_sample : dict :=
  <["answer" := PStr (" Use uv." +:+ String newline "It is faster. ")]>
    (<["links" := PList [App.link_dict (App.mk_link (PStr "https://a") "alpha");
                         App.link_dict (App.mk_link (PStr "https://b") "bravo")]]>
       (<["confidence" := PInt 3]> ∅)).

(** A document without a url. *)
Definition doc_without_url (content : string) : dict :=
  <["content" := PStr content]> ∅.

(** A metadata file of two documents, the first with an embedding, and a
    file system that holds it at every path and accepts every write. *)
Definition metadata_sample : list (gmap string string) :=
  [ <["url" := "https://a"]> (<["content" := "alpha"]> (<["embedding" := "[0.1, 0.2]"]> ∅));
    <["url" := "https://b"]> (<["content" := "bravo"]> ∅) ].

Definition fs_sample : Compress.file_system string :=
  Compress.mk_fs (fun _ => Compress.Loaded metadata_sample)
                 (fun _ _ => Compress.SaveDone).

End Demo.

(** ** Facts about the string primitives *)

Section StringFacts.
Import PyStr.

Lemma append_nil (t : string) : EmptyString +:+ t = t.
Proof. reflexivity. Qed.

Lemma append_cons (c : ascii) (s t : string) :
  String c s +:+ t = String c (s +:+ t).
Proof. reflexivity. Qed.

Lemma length_append (s t : string) :
  String.length (s +:+ t) = String.length s + String.length t.
Proof.
  induction s as [|c s IH]; [reflexivity|].
  rewrite append_cons. simpl. now rewrite IH.
Qed.

Lemma append_assoc (s t u : string) : (s +:+ t) +:+ u = s +:+ (t +:+ u).
Proof.
  induction s as [|c s IH]; [reflexivity|].
  rewrite !append_cons. now rewrite IH.
Qed.

Lemma length_slice_to (n : nat) (s : string) :
  String.length (slice_to n s) = min n (String.length s).
Proof.
  revert s; induction n as [|n IH]; intros [|c s]; simpl; try reflexivity.
  now rewrite IH.
Qed.

Lemma slice_to_from (n : nat) (s : string) :
  s = slice_to n s +:+ slice_from n s.
Proof.
  revert s; induction n as [|n IH]; intros [|c s]; simpl; try reflexivity.
  rewrite append_cons. now rewrite <- IH.
Qed.

Lemma rsplit_last_None (sep : ascii) (s : string) :
  rsplit_last sep s = None <-> contains sep s = false.
Proof.
  induction s as [|c s IH]; simpl; [tauto|].
  destruct (rsplit_last sep s) as [[a b]|].
  - split; [discriminate|]. intros Hc. apply orb_false_elim in Hc as [_ Hc].
    apply IH in Hc. discriminate.
  - destruct (Ascii.eqb c sep); simpl; [split; discriminate|].
    split; intros _; [now apply IH | reflexivity].
Qed.

Lemma rsplit_last_Some (sep : ascii) (s a b : string) :
  rsplit_last sep s = Some (a, b) ->
  s = a +:+ String sep b /\ contains sep b = false.
Proof.
  revert a b; induction s as [|c s IH]; simpl; intros a b Hs; [discriminate|].
  destruct (rsplit_last sep s) as [[a' b']|] eqn:Hr.
  - inversion Hs; subst. destruct (IH a' b eq_refl) as [-> Hb].
    split; [now rewrite append_cons | exact Hb].
  - destruct (Ascii.eqb c sep) eqn:Hc; [|discriminate].
    apply Ascii.eqb_eq in Hc. apply rsplit_last_None in Hr.
    inversion Hs; subst. split; [reflexivity | exact Hr].
Qed.

Lemma get_append_length (p r : string) (c : ascii) :
  String.get (String.length p) (p +:+ String c r) = Some c.
Proof.
  induction p as [|d p IH]; [reflexivity|].
  rewrite append_cons. simpl. exact IH.
Qed.

(** The part kept by [truncated] is the text before the last space of the
    first 150 characters, or all of them when they hold no space. *)
Lemma truncated_cases (cleaned : string) :
  (exists tail,
      slice_to 150 cleaned = truncated cleaned +:+ String space tail
      /\ contains space tail = false)
  \/ (contains space (slice_to 150 cleaned) = false
      /\ truncated cleaned = slice_to 150 cleaned).
Proof.
  unfold truncated, rsplit1.
  destruct (rsplit_last space (slice_to 150 cleaned)) as [[a b]|] eqn:Hr.
  - left. exists b. simpl. now apply rsplit_last_Some.
  - right. split; [now apply rsplit_last_None | reflexivity].
Qed.

Lemma contains_append (c : ascii) (s t : string) :
  contains c (s +:+ t) = contains c s || contains c t.
Proof.
  induction s as [|a s IH]; [reflexivity|].
  rewrite append_cons. simpl. rewrite IH. now rewrite orb_assoc.
Qed.

Lemma length_truncated (cleaned : string) :
  String.length (truncated cleaned) <= 150.
Proof.
  pose proof (length_slice_to 150 cleaned) as Hl.
  destruct (truncated_cases cleaned) as [(tail & Heq & _) | [_ Heq]].
  - rewrite Heq, length_append in Hl. lia.
  - rewrite Heq. lia.
Qed.

Lemma truncated_prefix (cleaned : string) :
  exists rest, cleaned = truncated cleaned +:+ rest.
Proof.
  destruct (truncated_cases cleaned) as [(tail & Heq & _) | [_ Heq]].
  - exists (String space tail +:+ slice_from 150 cleaned).
    rewrite <- append_assoc, <- Heq. apply slice_to_from.
  - exists (slice_from 150 cleaned). rewrite Heq. apply slice_to_from.
Qed.

End StringFacts.

(** ** The fallback content snippet *)

Section Snippet.
Import PyStr.

Lemma snippet_short (cleaned : string) :
  String.length cleaned <= 150 -> snippet cleaned = cleaned.
Proof.
  intros Hl. unfold snippet.
  destruct (Nat.ltb_spec 150 (String.length cleaned)); [lia | reflexivity].
Qed.

Lemma snippet_long (cleaned : string) :
  150 < String.length cleaned -> snippet cleaned = truncated cleaned +:+ "...".
Proof.
  intros Hl. unfold snippet.
  destruct (Nat.ltb_spec 150 (String.length cleaned)); [reflexivity | lia].
Qed.

Lemma length_snippet_long (cleaned : string) :
  150 < String.length cleaned -> String.length (snippet cleaned) <= 153.
Proof.
  intros Hl. rewrite (snippet_long _ Hl), length_append.
  pose proof (length_truncated cleaned). simpl. lia.
Qed.

(** A cut that is followed by a space does not split a word. *)
Lemma cut_before_space (p r : string) :
  splits_mid_word (p +:+ String space r) (String.length p) = false.
Proof.
  unfold splits_mid_word, char_at.
  destruct (String.length p) as [|k] eqn:Hk; [reflexivity|].
  rewrite <- Hk, get_append_length.
  destruct (String.get k _); [|reflexivity].
  unfold space. rewrite Ascii.eqb_refl. apply andb_false_r.
Qed.

(** C2 (counterexample). A cleaned content of 151 letters and no space is
    longer than 150 characters, and its snippet keeps the first 150 letters:
    the cut falls between two letters of the same word. *)
Lemma snippet_splits_long_word :
  let cleaned := repeat_char "a" 151 in
  150 < String.length cleaned
  /\ snippet cleaned = truncated cleaned +:+ "..."
  /\ truncated cleaned = repeat_char "a" 150
  /\ splits_mid_word cleaned (String.length (truncated cleaned)) = true.
Proof.
  intros cleaned. split; [vm_compute; lia|].
  repeat split; vm_compute; reflexivity.
Qed.

(** C2 (amended). The snippet of a cleaned content of at most 150 characters
    is that content. Otherwise it is [truncated cleaned] followed by an
    ellipsis, where [truncated cleaned] is a prefix of the content of at most
    150 characters, so the snippet has at most 153. When the first 150
    characters hold a space, the prefix stops just before the last of them:
    what is dropped after that space holds no space, and the cut does not
    split a word. When they hold no space, the prefix is all 150 of them. *)
Theorem snippet_truncation (cleaned : string) :
  (String.length cleaned <= 150 -> snippet cleaned = cleaned)
  /\ (150 < String.length cleaned ->
      snippet cleaned = truncated cleaned +:+ "..."
      /\ (exists rest, cleaned = truncated cleaned +:+ rest)
      /\ String.length (truncated cleaned) <= 150
      /\ String.length (snippet cleaned) <= 153
      /\ (contains space (slice_to 150 cleaned) = true ->
          (exists tail,
              slice_to 150 cleaned = truncated cleaned +:+ String space tail
              /\ contains space tail = false)
          /\ splits_mid_word cleaned (String.length (truncated cleaned)) = false)
      /\ (contains space (slice_to 150 cleaned) = false ->
          truncated cleaned = slice_to 150 cleaned)).
Proof.
  split; [apply snippet_short|]. intros Hl.
  split; [now apply snippet_long|].
  split; [apply truncated_prefix|].
  split; [apply length_truncated|].
  split; [now apply length_snippet_long|].
  destruct (truncated_cases cleaned) as [(tail & Heq & Htail) | [Hno Heq]].
  - split; [|intros Hc].
    + intros _. split; [now exists tail|].
      rewrite (slice_to_from 150 cleaned) at 1.
      rewrite Heq, append_assoc, append_cons. apply cut_before_space.
    + rewrite Heq, contains_append in Hc.
      change (contains space (String space tail)) with true in Hc.
      rewrite orb_true_r in Hc. discriminate.
  - split; [|intros _; exact Heq].
    intros Hc. rewrite Hno in Hc. discriminate.
Qed.

(** The amended statement at a content of thirty five-letter words. *)
Lemma snippet_truncation_witness :
  let cleaned :=
    "alpha bravo delta gamma omega alpha bravo delta gamma omega alpha bravo delta gamma omega alpha bravo delta gamma omega alpha bravo delta gamma omega alpha bravo delta gamma omega" in
  150 < String.length cleaned
  /\ snippet cleaned = truncated cleaned +:+ "..."
  /\ String.length (snippet cleaned) <= 153
  /\ splits_mid_word cleaned (String.length (truncated cleaned)) = false.
Proof.
  intros cleaned.
  assert (Hl : 150 < String.length cleaned) by (vm_compute; lia).
  destruct (proj2 (snippet_truncation cleaned) Hl) as (H1 & _ & _ & H4 & H5 & _).
  split; [exact Hl|]. split; [exact H1|]. split; [exact H4|].
  apply H5. reflexivity.
Defined.

End Snippet.

(** ** The image reference *)

Section Image.
Import PyStr App.

Lemma startswith_head (s p q : string) (a b : ascii) :
  startswith s (String a p) = true -> startswith s (String b q) = true -> a = b.
Proof.
  unfold startswith. destruct s as [|c s]; simpl; [discriminate|].
  destruct (ascii_dec a c), (ascii_dec b c); try discriminate. congruence.
Qed.

Lemma mime_type_jpeg (s : string) :
  startswith s "/9j/" = true -> mime_type s = "image/jpeg".
Proof. intros H. unfold mime_type. now rewrite H. Qed.

Lemma mime_type_png (s : string) :
  startswith s "iVBORw0KGgo" = true -> mime_type s = "image/png".
Proof.
  intros H. unfold mime_type. rewrite H.
  destruct (startswith s "/9j/") eqn:Hj; [|reflexivity].
  pose proof (startswith_head _ _ _ _ _ H Hj). discriminate.
Qed.

Lemma mime_type_webp (s : string) :
  startswith s "UklGR" = true -> mime_type s = "image/webp".
Proof.
  intros H. unfold mime_type. rewrite H.
  destruct (startswith s "/9j/") eqn:Hj.
  { pose proof (startswith_head _ _ _ _ _ H Hj). discriminate. }
  destruct (startswith s "iVBORw0KGgo") eqn:Hp; [|reflexivity].
  pose proof (startswith_head _ _ _ _ _ H Hp). discriminate.
Qed.

Lemma mime_type_generic (s : string) :
  startswith s "/9j/" = false -> startswith s "iVBORw0KGgo" = false ->
  startswith s "UklGR" = false -> mime_type s = "application/octet-stream".
Proof. intros H1 H2 H3. unfold mime_type. now rewrite H1, H2, H3. Qed.

Lemma data_uri_longer (m s : string) : "data:" +:+ m +:+ ";base64," +:+ s <> s.
Proof.
  intros Heq. apply (f_equal String.length) in Heq.
  rewrite !length_append in Heq. simpl in Heq. lia.
Qed.

Lemma truthy_nonempty (s : string) : s <> "" -> truthy (PStr s) = true.
Proof.
  intros Hs. simpl. destruct (String.eqb_spec s ""); [contradiction | reflexivity].
Qed.

(** C5 (counterexample). An image payload that is the empty string does not
    start with [http://] or [https://], yet no inline data URI is built for
    it: the handler goes on without an image. *)
Lemma empty_image_not_attached :
  startswith "" "http://" || startswith "" "https://" = false
  /\ image_url_for_llm (PStr "") = Ok None
  /\ image_url_for_llm (PStr "")
     <> Ok (Some ("data:" +:+ mime_type "" +:+ ";base64," +:+ "")).
Proof. repeat split. discriminate. Qed.

(** C5 (amended). For every image payload that is a non-empty string: when
    it starts with [http://] or [https://] the image reference is the
    payload itself and not a data URI of it; otherwise it is the inline
    reference [data:<mime>;base64,<payload>] and not the payload itself. The
    MIME type is [image/jpeg] for a payload that starts with [/9j/],
    [image/png] for [iVBORw0KGgo], [image/webp] for [UklGR], and
    [application/octet-stream] when it starts with none of them. *)
Theorem image_reference (s : string) :
  s <> "" ->
  let external := startswith s "http://" || startswith s "https://" in
  let inline := "data:" +:+ mime_type s +:+ ";base64," +:+ s in
  (external = true ->
     image_url_for_llm (PStr s) = Ok (Some s)
     /\ image_url_for_llm (PStr s) <> Ok (Some inline))
  /\ (external = false ->
     image_url_for_llm (PStr s) = Ok (Some inline)
     /\ image_url_for_llm (PStr s) <> Ok (Some s))
  /\ (startswith s "/9j/" = true -> mime_type s = "image/jpeg")
  /\ (startswith s "iVBORw0KGgo" = true -> mime_type s = "image/png")
  /\ (startswith s "UklGR" = true -> mime_type s = "image/webp")
  /\ (startswith s "/9j/" = false -> startswith s "iVBORw0KGgo" = false ->
      startswith s "UklGR" = false -> mime_type s = "application/octet-stream").
Proof.
  intros Hs external inline.
  assert (Hurl : image_url_for_llm (PStr s)
                 = Ok (Some (if external then s else inline))).
  { unfold image_url_for_llm. rewrite (truthy_nonempty s Hs).
    fold external. now destruct external. }
  split; [|split].
  - intros He. rewrite Hurl, He. split; [reflexivity|].
    intros Heq. inversion Heq as [Hi]. symmetry in Hi.
    now apply data_uri_longer in Hi.
  - intros He. rewrite Hurl, He. split; [reflexivity|].
    intros Heq. inversion Heq as [Hi]. now apply data_uri_longer in Hi.
  - repeat split.
    + apply mime_type_jpeg.
    + apply mime_type_png.
    + apply mime_type_webp.
    + apply mime_type_generic.
Qed.

(** The amended statement at the two payloads of the specification. *)
Lemma image_reference_witness :
  image_url_for_llm (PStr "iVBORw0KGgoAAAA")
    = Ok (Some "data:image/png;base64,iVBORw0KGgoAAAA")
  /\ image_url_for_llm (PStr "https://example.com/x.jpg")
    = Ok (Some "https://example.com/x.jpg").
Proof.
  split.
  - assert (Hs : "iVBORw0KGgoAAAA" <> "") by discriminate.
    destruct (image_reference "iVBORw0KGgoAAAA" Hs) as (_ & Hin & _).
    exact (proj1 (Hin eq_refl)).
  - assert (Hs : "https://example.com/x.jpg" <> "") by discriminate.
    destruct (image_reference "https://example.com/x.jpg" Hs) as (Hex & _).
    exact (proj1 (Hex eq_refl)).
Defined.

End Image.

(** ** The compaction script *)

Section CompressFacts.
Import Compress.
Context {V : Type}.
Implicit Types (metadata : list (gmap string V)) (doc : gmap string V).

(** The loop maps every document to itself without the key, whatever the
    initial count. *)
Lemma strip_embeddings_docs metadata (n : nat) :
  (strip_embeddings metadata n).1 = delete "embedding" <$> metadata.
Proof.
  revert n; induction metadata as [|doc rest IH]; intros n; simpl; [reflexivity|].
  case_bool_decide as Hk.
  - specialize (IH (S n)). destruct (strip_embeddings rest (S n)) as [rest' m].
    simpl in *. now rewrite IH.
  - specialize (IH n). destruct (strip_embeddings rest n) as [rest' m].
    simpl in *. rewrite IH. f_equal. symmetry. apply delete_id.
    now apply eq_None_not_Some.
Qed.

(** On documents without the key the loop changes nothing and counts
    nothing. *)
Lemma strip_embeddings_clean metadata (n : nat) :
  Forall (fun doc => doc !! "embedding" = None) metadata ->
  strip_embeddings metadata n = (metadata, n).
Proof.
  intros Hall; revert n; induction Hall as [|doc rest Hdoc _ IH]; intros n;
    simpl; [reflexivity|].
  case_bool_decide as Hk.
  - rewrite Hdoc in Hk. now destruct Hk.
  - now rewrite IH.
Qed.

Lemma stripped_clean metadata :
  Forall (fun doc => doc !! "embedding" = None) (delete "embedding" <$> metadata).
Proof.
  apply Forall_fmap, Forall_forall. intros doc _. simpl. apply lookup_delete_eq.
Qed.

(** C7. When the input file holds the list [metadata], every list the script
    writes has the length of [metadata] and holds, at each position, the
    input document of that position without its key [embedding]: that key is
    absent and every other key has the value it had. When the write
    succeeds, that list is written and the script does not exit. *)
Theorem remove_embeddings_frame (fs : file_system V)
    (input_filepath output_filepath : string) metadata :
  fs_load fs input_filepath = Loaded metadata ->
  let r := remove_embeddings_from_metadata_json fs input_filepath output_filepath in
  (forall output, written r = Some output ->
     length output = length metadata
     /\ forall i doc, metadata !! i = Some doc ->
          exists doc', output !! i = Some doc'
            /\ doc' = delete "embedding" doc
            /\ doc' !! "embedding" = None
            /\ forall k, k <> "embedding" -> doc' !! k = doc !! k)
  /\ (fs_save fs output_filepath (delete "embedding" <$> metadata) = SaveDone ->
      written r = Some (delete "embedding" <$> metadata) /\ exit_code r = None).
Proof.
  intros Hload r. subst r. unfold remove_embeddings_from_metadata_json.
  rewrite Hload. pose proof (strip_embeddings_docs metadata 0) as Hdocs.
  destruct (strip_embeddings metadata 0) as [metadata' modified_count].
  simpl in Hdocs. subst metadata'.
  assert (Hout : forall output, Some (delete "embedding" <$> metadata) = Some output ->
     length output = length metadata
     /\ forall i doc, metadata !! i = Some doc ->
          exists doc', output !! i = Some doc'
            /\ doc' = delete "embedding" doc
            /\ doc' !! "embedding" = None
            /\ forall k, k <> "embedding" -> doc' !! k = doc !! k).
  { intros output [= <-]. split; [apply length_fmap|].
    intros i doc Hi. exists (delete "embedding" doc).
    rewrite list_lookup_fmap, Hi. repeat split.
    - apply lookup_delete_eq.
    - intros k Hk. now apply lookup_delete_ne. }
  split.
  - destruct (fs_save fs output_filepath _) as [|[] e]; simpl;
      try exact Hout; discriminate.
  - intros ->. split; reflexivity.
Qed.

(** C10. Running the loop on a list it has already been run on returns the
    same list, document by document, with a count of zero. *)
Theorem strip_embeddings_idempotent metadata (n : nat) :
  strip_embeddings (strip_embeddings metadata n).1 0
  = ((strip_embeddings metadata n).1, 0).
Proof.
  rewrite strip_embeddings_docs. apply strip_embeddings_clean, stripped_clean.
Qed.

End CompressFacts.

(** C7 at the sample file: the embedding of the first document is gone, its
    other fields and the second document are as before. *)
Lemma remove_embeddings_frame_witness :
  Compress.written
    (Compress.remove_embeddings_from_metadata_json
       Demo.fs_sample "metadatas.json" "metadata.json")
  = Some [ <["url" := "https://a"]> (<["content" := "alpha"]> ∅);
           <["url" := "https://b"]> (<["content" := "bravo"]> ∅) ].
Proof.
  destruct (remove_embeddings_frame Demo.fs_sample "metadatas.json" "metadata.json"
              Demo.metadata_sample eq_refl) as [_ Hsave].
  destruct (Hsave eq_refl) as [Hw _]. rewrite Hw. reflexivity.
Defined.

(** ** The request handler *)

Section HandlerFacts.
Context `{R : Rag}.
Import PyStr App Pipeline.

(** A truthy question was read from a body that is an object. *)
Lemma question_read (req : request) :
  truthy (question_of req) = true ->
  exists d, get_json req = Ok (PDict d)
    /\ question_of req = dict_get d "question"
    /\ image_of req = dict_get d "image".
Proof.
  unfold question_of, image_of, read.
  destruct (get_json req) as [data|e]; [|discriminate].
  destruct data as [| | | | | |d]; try discriminate. intros _. now exists d.
Qed.

Lemma handler_object g req (d : dict) :
  is_json req = true -> get_json req = Ok (PDict d) ->
  answer_question_api g req
  = answer_question g (dict_get d "question") (dict_get d "image").
Proof. intros Hj Hd. unfold answer_question_api. now rewrite Hj, Hd. Qed.

Lemma handler_valid g req :
  is_json req = true -> truthy (question_of req) = true ->
  answer_question_api g req = answer_question g (question_of req) (image_of req).
Proof.
  intros Hj Hq. destruct (question_read req Hq) as (d & Hd & -> & ->).
  now apply handler_object.
Qed.

(** A JSON request whose question is not truthy: the body is an object and
    the answer is 400, or the body did not parse, or it is not an object. *)
Lemma handler_falsy g req :
  is_json req = true -> truthy (question_of req) = false ->
  ((exists d, get_json req = Ok (PDict d))
   /\ answer_question_api g req
      = ([], Ok (error_response "Missing 'question' in request body" 400)))
  \/ (exists e, get_json req = Raise e /\ answer_question_api g req = ([], Raise e))
  \/ (exists data, get_json req = Ok data /\ (forall d, data <> PDict d)
        /\ answer_question_api g req = ([], Raise (no_attribute data "get"))).
Proof.
  intros Hj Hq. unfold answer_question_api. rewrite Hj. simpl.
  unfold question_of, read in Hq.
  destruct (get_json req) as [data|e]; [|right; left; eauto].
  destruct data as [| | | | | |d];
    try (right; right; eexists; split; [reflexivity|]; split; [discriminate | reflexivity]).
  left. split; [eauto|]. simpl in *. unfold answer_question. now rewrite Hq.
Qed.

(** What the handler does once the request has entered the pipeline. *)
Lemma handler_enters g req index metadata image_url :
  enters_pipeline g req index metadata image_url ->
  answer_question_api g req =
    match get_embedding (question_of req) with
    | Raise e =>
        ([stage_log Embedding +:+ exc_str e],
         Ok (answer_response (stage_answer Embedding +:+ exc_str e) [] 500))
    | Ok q_embed =>
        match retrieve_and_prioritize_documents q_embed index metadata 750 5 with
        | Raise e =>
            ([stage_log Retrieval +:+ exc_str e],
             Ok (answer_response (stage_answer Retrieval +:+ exc_str e) [] 500))
        | Ok [] =>
            ([], Ok (answer_response
                       "Sorry, I couldn't find any relevant information in the knowledge base."
                       [] 200))
        | Ok relevant_docs =>
            match completes req relevant_docs image_url with
            | Raise e =>
                ([stage_log Completion +:+ exc_str e],
                 Ok (answer_response (stage_answer Completion +:+ exc_str e) [] 500))
            | Ok raw_llm_response => post_process raw_llm_response relevant_docs
            end
        end
    end.
Proof.
  intros [Hjson Hq Hidx Hmd Himg]. rewrite (handler_valid _ _ Hjson Hq).
  unfold answer_question. rewrite Hq, Hidx, Hmd, Himg. reflexivity.
Qed.

(** A failed stage yields the answer of that stage followed by the text of
    the exception, no links and status 500. *)
Lemma handler_stage_fails g req s e :
  stage_fails g req s e ->
  answer_question_api g req =
    ([stage_log s +:+ exc_str e],
     Ok (answer_response (stage_answer s +:+ exc_str e) [] 500)).
Proof.
  intros Hf. destruct Hf as [i m u e He Hemb | i m u v e He Hemb Hret
                            | i m u v docs e He Hemb Hret Hne Hc];
    rewrite (handler_enters _ _ _ _ _ He), Hemb; try reflexivity;
    rewrite Hret; try reflexivity.
  destruct docs as [|d docs]; [contradiction|]. now rewrite Hc.
Qed.

Lemma handler_retrieves g req docs :
  retrieves g req docs ->
  exists image_url,
    answer_question_api g req =
      match docs with
      | [] =>
          ([], Ok (answer_response
                     "Sorry, I couldn't find any relevant information in the knowledge base."
                     [] 200))
      | _ :: _ =>
          match completes req docs image_url with
          | Raise e =>
              ([stage_log Completion +:+ exc_str e],
               Ok (answer_response (stage_answer Completion +:+ exc_str e) [] 500))
          | Ok raw_llm_response => post_process raw_llm_response docs
          end
      end.
Proof.
  intros [i m u v ds He Hemb Hret]. exists u.
  rewrite (handler_enters _ _ _ _ _ He), Hemb, Hret. reflexivity.
Qed.

(** *** The fallback path *)

Lemma fallback_links_loop_length (docs : list dict) (acc l : list fallback_link) :
  fallback_links_loop docs acc = Ok l -> length l = length acc + length docs.
Proof.
  revert acc; induction docs as [|doc rest IH]; intros acc; simpl.
  - intros [= <-]. lia.
  - destruct (clean_content_for_prompt _) as [cleaned|e]; simpl; [|discriminate].
    destruct (dict_getitem doc "url") as [url|e]; simpl; [|discriminate].
    intros Hl. apply IH in Hl. rewrite length_app in Hl. simpl in Hl. lia.
Qed.

Lemma fallback_links_loop_total (docs : list dict) (acc : list fallback_link) :
  Forall has_url docs -> Forall cleans docs ->
  exists l, fallback_links_loop docs acc = Ok l.
Proof.
  intros Hurl; revert acc; induction Hurl as [|doc rest [url Hu] _ IH];
    intros acc Hc; simpl; [now eexists|].
  inversion Hc as [|? ? [cleaned Hd] Hrest]; subst.
  rewrite Hd. unfold dict_getitem. rewrite Hu. simpl. now apply IH.
Qed.

Lemma take_two_nonempty (docs : list dict) :
  docs <> [] -> 1 <= length (take (min 2 (length docs)) docs).
Proof.
  intros Hne. rewrite length_take. destruct docs; [contradiction|]. simpl. lia.
Qed.

Lemma fallback_response_links (docs : list dict) (resp : response) :
  fallback_response docs = Ok resp ->
  status resp = 200%Z /\ has_links (min 2 (length docs)) resp.
Proof.
  unfold fallback_response.
  destruct (fallback_links_loop _ []) as [l|e] eqn:Hl; unfold bind; [|discriminate].
  intros [= <-]. split; [reflexivity|]. exists (map link_dict l).
  split; [reflexivity|]. apply fallback_links_loop_length in Hl.
  rewrite length_take in Hl. rewrite length_map, Hl. simpl length. lia.
Qed.

Lemma normalised_response_links (answer_data : pyval) (resp : response) :
  normalised_response answer_data = Ok resp ->
  status resp = 200%Z
  /\ exists d, answer_data = PDict d /\ links_of (body resp) = links_of d.
Proof.
  unfold normalised_response. destruct answer_data as [| | | | |l|d]; try discriminate.
  destruct (dict_getitem d "answer") as [a|e]; simpl; [|discriminate].
  destruct a; try discriminate. intros [= <-]. split; [reflexivity|].
  exists d. split; [reflexivity|]. unfold links_of, jsonify. simpl.
  now rewrite lookup_insert_ne.
Qed.

Lemma post_process_status (raw : string) (docs : list dict) log resp :
  post_process raw docs = (log, Ok resp) -> status resp = 200%Z.
Proof.
  unfold post_process. destruct (clean_json_response raw docs) as [ad|e]; [|discriminate].
  destruct (answer_missing ad) as [[]|e]; [| |discriminate]; intros [= _ Hr].
  - now apply fallback_response_links in Hr.
  - now apply normalised_response_links in Hr.
Qed.

Lemma fallback_response_cites (docs : list dict) (resp : response) :
  docs <> [] -> fallback_response docs = Ok resp ->
  exists l, l <> []
    /\ fallback_links_loop (take (min 2 (length docs)) docs) [] = Ok l
    /\ body resp = answer_body (strip (cite_links fallback_intro l)) (map link_dict l).
Proof.
  intros Hne. unfold fallback_response.
  destruct (fallback_links_loop _ []) as [l|e] eqn:Hl; unfold bind; [|discriminate].
  intros [= <-]. exists l. pose proof (take_two_nonempty docs Hne) as Hlen.
  apply fallback_links_loop_length in Hl as Hl'.
  destruct l as [|x l]; [cbn [length] in Hl'; lia|].
  split; [discriminate|]. split; reflexivity.
Qed.

(** *** Status codes *)

Lemma handler_503 g req log resp :
  answer_question_api g req = (log, Ok resp) -> status resp = 503%Z ->
  is_json req = true /\ truthy (question_of req) = true /\ not_ready g
  /\ resp = answer_response
              "Server is still initializing. Please try again in a moment." [] 503.
Proof.
  unfold not_ready. destruct (is_json req) eqn:Hj.
  2:{ unfold answer_question_api. rewrite Hj. simpl. intros [= _ <-]. discriminate. }
  destruct (truthy (question_of req)) eqn:Hq.
  2:{ destruct (handler_falsy g req Hj Hq)
        as [[_ ->] | [(e & _ & ->) | (data & _ & _ & ->)]];
        [intros [= _ <-] | |]; discriminate. }
  rewrite (handler_valid _ _ Hj Hq). unfold answer_question. rewrite Hq. simpl.
  destruct (rag_index g) as [index|], (rag_metadata g) as [metadata|];
    try (intros [= _ <-] _; repeat split; auto).
  destruct (image_url_for_llm _) as [image_url|e]; [|discriminate].
  destruct (get_embedding _) as [q_embed|e]; [|intros [= _ <-]; discriminate].
  destruct (retrieve_and_prioritize_documents _ _ _ _ _) as [[|d docs]|e];
    try (intros [= _ <-]; discriminate).
  destruct (bind _ _) as [raw|e]; [|intros [= _ <-]; discriminate].
  intros Hp Hs. apply post_process_status in Hp. congruence.
Qed.

Lemma no_question_falsy (req : request) :
  no_question req -> truthy (question_of req) = false.
Proof.
  unfold no_question, question_of, read. intros (d & -> & [Hq | Hq]);
    simpl; unfold dict_get; now rewrite Hq.
Qed.

(** *** The claims about the handler *)

(** C4. When the retrieval step of a request returns the empty list, the
    handler responds with status 200, the answer that no relevant information
    was found and an empty list of links; nothing is printed to stderr and no
    exception leaves the handler. *)
Theorem empty_retrieval_is_success g req :
  retrieves g req [] ->
  exists resp,
    answer_question_api g req = ([], Ok resp)
    /\ is_2xx resp
    /\ status resp = 200%Z
    /\ answer_of (body resp)
       = Some "Sorry, I couldn't find any relevant information in the knowledge base."
    /\ links_of (body resp) = Some [].
Proof.
  intros Hr. destruct (handler_retrieves _ _ _ Hr) as [u ->].
  eexists; split; [reflexivity|]. unfold is_2xx. simpl. repeat split; lia.
Qed.


(** C3 (amended). When the embedding, retrieval or completion stage of a
    request raises [e], the handler responds with status 500, no links, and
    an answer that is the sentence of the stage followed by the text of [e]
    as [str(e)] gives it; the class and the traceback of [e] do not enter
    the response. *)
Theorem stage_failure_message g req s e :
  stage_fails g req s e ->
  exists log,
    answer_question_api g req
    = (log, Ok (answer_response (stage_answer s +:+ exc_str e) [] 500)).
Proof. intros Hf. rewrite (handler_stage_fails _ _ _ _ Hf). now eexists. Qed.

(** C6 (amended). A failure of the embedding, retrieval or completion stage
    yields a response with an answer, an empty list of links and status 500.
    While the index or the metadata is not loaded, a JSON request whose body
    is an object with a non-empty question receives the initializing answer
    with status 503, and a request that is not JSON or whose body is an
    object with a missing or empty question receives status 400; a response
    with status 503 is only ever the initializing one. At start-up the
    process exits, with code 1, exactly when loading the index and the
    metadata raises, and serves with the loaded globals otherwise. No
    request ends a serving process: whatever the handler returns or raises,
    the process goes on serving with the same globals. *)
Theorem failure_responses g req :
  (forall s e, stage_fails g req s e ->
     exists log resp,
       answer_question_api g req = (log, Ok resp)
       /\ (exists a, answer_of (body resp) = Some a)
       /\ links_of (body resp) = Some []
       /\ status resp = 500%Z /\ ~ is_2xx resp)
  /\ (not_ready g -> is_json req = true -> truthy (question_of req) = true ->
      answer_question_api g req
      = ([], Ok (answer_response
                   "Server is still initializing. Please try again in a moment." [] 503)))
  /\ (not_ready g -> is_json req = false \/ no_question req ->
      exists msg, answer_question_api g req = ([], Ok (error_response msg 400)))
  /\ (forall log resp,
        answer_question_api g req = (log, Ok resp) -> status resp = 503%Z ->
        not_ready g
        /\ resp = answer_response
                    "Server is still initializing. Please try again in a moment." [] 503)
  /\ (forall code, startup.2 = Exited code <->
        code = 1%Z /\ exists e, load_index_and_metadata = Raise e)
  /\ (forall index metadata,
        load_index_and_metadata = Ok (index, metadata) ->
        startup.2 = Serving (mk_globals index metadata))
  /\ (serve (Serving g) req = (Serving g, Some (answer_question_api g req)))
  /\ (forall p code, (serve p req).1 = Exited code -> p = Exited code).
Proof.
  split; [|split; [|split; [|split; [|split; [|split; [|split]]]]]].
  - intros s e Hf. rewrite (handler_stage_fails _ _ _ _ Hf).
    eexists _, _. split; [reflexivity|]. unfold is_2xx. simpl.
    repeat split; [now eexists | lia].
  - intros Hnr Hjson Hq. rewrite (handler_valid _ _ Hjson Hq).
    unfold answer_question. rewrite Hq. simpl.
    destruct Hnr as [-> | ->]; [reflexivity|]. now destruct (rag_index g).
  - intros _ [Hj | Hq].
    + unfold answer_question_api. rewrite Hj. simpl. now eexists.
    + destruct (is_json req) eqn:Hj.
      * pose proof (no_question_falsy _ Hq) as Hf. destruct Hq as (d & Hd & _).
        rewrite (handler_object _ _ _ Hj Hd). unfold answer_question.
        unfold question_of, read in Hf. rewrite Hd in Hf. simpl in Hf.
        rewrite Hf. simpl. now eexists.
      * unfold answer_question_api. rewrite Hj. simpl. now eexists.
  - intros log resp Hrun Hs. now apply handler_503 in Hrun.
  - intros code. unfold startup.
    destruct load_index_and_metadata as [[index metadata]|e]; simpl.
    + split; [discriminate | intros [_ [e [=]]]].
    + split; [intros [= <-]; eauto | now intros [-> _]].
  - intros index metadata Hl. unfold startup. now rewrite Hl.
  - reflexivity.
  - intros [g'|code'] code; simpl; [discriminate | auto].
Qed.

(** C8. On a non-empty list of retrieved documents that all carry a url, the
    loop of the fallback path never returns the empty list: whenever it
    returns, [fallback_links] is non-empty and the answer is built by the
    branch that cites the links, not by the one that reports that no snippet
    was found. It returns, with [min 2 (length docs)] links, whenever
    cleaning the content of the documents returns. *)
Theorem fallback_links_nonempty (docs : list dict) :
  docs <> [] -> Forall has_url docs ->
  let selected := take (min 2 (length docs)) docs in
  fallback_links_loop selected [] <> Ok []
  /\ (forall l, fallback_links_loop selected [] = Ok l ->
        l <> [] /\ fallback_answer_text l = cite_links fallback_intro l)
  /\ (forall resp, fallback_response docs = Ok resp ->
        exists l, l <> []
          /\ body resp = answer_body (strip (cite_links fallback_intro l))
                                     (map link_dict l))
  /\ (Forall cleans docs ->
      exists l, fallback_links_loop selected [] = Ok l
        /\ length l = min 2 (length docs)).
Proof.
  intros Hne Hurl selected.
  assert (Hnonempty : forall l, fallback_links_loop selected [] = Ok l -> l <> []).
  { intros l Hl ->. apply fallback_links_loop_length in Hl.
    pose proof (take_two_nonempty docs Hne). cbn [length] in Hl.
    fold selected in H. lia. }
  split; [|split; [|split]].
  - intros Hl. now apply (Hnonempty [] Hl).
  - intros l Hl. split; [now apply Hnonempty|].
    apply Hnonempty in Hl. now destruct l.
  - intros resp Hresp.
    destruct (fallback_response_cites docs resp Hne Hresp) as (l & H1 & _ & H3).
    now exists l.
  - intros Hc.
    destruct (fallback_links_loop_total selected [])
      as [l Hl]; [now apply Forall_take | now apply Forall_take |].
    exists l. split; [exact Hl|]. apply fallback_links_loop_length in Hl.
    subst selected. rewrite length_take in Hl. cbn [length] in Hl. lia.
Qed.

(** C9 (amended). A request that is not JSON, or whose JSON body is an
    object with a missing or empty question, receives a response with status
    400 whatever the globals are, so also while the index is not loaded. A
    response with status 503 is only given to a JSON request whose body is
    an object that holds a question, and that question is truthy: not the
    empty string. *)
Theorem validation_precedes_readiness g req :
  (is_json req = false \/ no_question req ->
     exists msg, answer_question_api g req = ([], Ok (error_response msg 400)))
  /\ (forall log resp,
        answer_question_api g req = (log, Ok resp) -> status resp = 503%Z ->
        is_json req = true
        /\ exists d q, get_json req = Ok (PDict d)
             /\ d !! "question" = Some q
             /\ truthy q = true /\ q <> PStr "").
Proof.
  split.
  - intros [Hj | Hq].
    + unfold answer_question_api. rewrite Hj. simpl. now eexists.
    + destruct (is_json req) eqn:Hj.
      * pose proof (no_question_falsy _ Hq) as Hf. destruct Hq as (d & Hd & _).
        rewrite (handler_object _ _ _ Hj Hd). unfold answer_question.
        unfold question_of, read in Hf. rewrite Hd in Hf. simpl in Hf.
        rewrite Hf. simpl. now eexists.
      * unfold answer_question_api. rewrite Hj. simpl. now eexists.
  - intros log resp Hrun Hs.
    destruct (handler_503 _ _ _ _ Hrun Hs) as (Hjson & Hq & _).
    split; [exact Hjson|]. destruct (question_read _ Hq) as (d & Hd & Hqd & _).
    rewrite Hqd in Hq. unfold dict_get in Hq.
    destruct (d !! "question") as [q|] eqn:Hdq; [|discriminate].
    exists d, q. split; [exact Hd|]. split; [exact Hdq|]. split; [exact Hq|].
    intros ->. discriminate.
Qed.

End HandlerFacts.

(** ** The claims about the handler at concrete requests *)

Section HandlerExamples.
Import App Pipeline Demo.

(** C4 at a question for which nothing is retrieved. *)
Lemma empty_retrieval_is_success_witness :
  @retrieves (rag_up [] PNone) ready (ask "What is TDS?") []
  /\ exists resp,
       @answer_question_api (rag_up [] PNone) ready (ask "What is TDS?") = ([], Ok resp)
       /\ status resp = 200%Z
       /\ links_of (body resp) = Some [].
Proof.
  assert (Hr : @retrieves (rag_up [] PNone) ready (ask "What is TDS?") []).
  { eapply retrieves_docs; [constructor; reflexivity | reflexivity | reflexivity]. }
  split; [exact Hr|].
  destruct (@empty_retrieval_is_success (rag_up [] PNone) _ _ Hr)
    as (resp & H1 & _ & H3 & _ & H5).
  exists resp. auto.
Defined.



(** C3 (counterexample). The embedding service raises a connection error
    whose text names an internal host: the answer sent to the caller ends
    with that text. *)
Lemma exception_text_exposed :
  let e := connection_error in
  @stage_fails (rag_embedding_down e) ready (ask "What is TDS?") Embedding e
  /\ exists log resp,
       @answer_question_api (rag_embedding_down e) ready (ask "What is TDS?")
       = (log, Ok resp)
       /\ answer_of (body resp)
          = Some "Error generating question embedding: HTTPSConnectionPool(host='aiproxy.internal', port=443): Max retries exceeded"
       /\ exposes e resp.
Proof.
  intros e. split.
  { eapply fails_embedding; [constructor; reflexivity | reflexivity]. }
  eexists _, _. split; [reflexivity|]. split; [reflexivity|].
  split; [discriminate|].
  exists "Error generating question embedding: ", "". reflexivity.
Qed.

(** C3 (amended) at the same failure. *)
Lemma stage_failure_message_witness :
  let e := connection_error in
  @stage_fails (rag_embedding_down e) ready (ask "What is TDS?") Embedding e
  /\ (@answer_question_api (rag_embedding_down e) ready (ask "What is TDS?")).2
     = Ok (answer_response ("Error generating question embedding: " +:+ exc_str e) [] 500).
Proof.
  intros e.
  assert (Hf : @stage_fails (rag_embedding_down e) ready (ask "What is TDS?") Embedding e).
  { eapply fails_embedding; [constructor; reflexivity | reflexivity]. }
  split; [exact Hf|].
  destruct (@stage_failure_message (rag_embedding_down e) _ _ _ _ Hf) as [log ->].
  reflexivity.
Defined.

(** C6 (counterexample). While the index and the metadata are not loaded, a
    JSON request without a question receives status 400 and a body without
    an answer, not the initializing response. *)
Lemma not_ready_without_question :
  let req := post (PDict ∅) in
  @not_ready (rag_up [] PNone) initializing
  /\ exists resp,
       @answer_question_api (rag_up [] PNone) initializing req = ([], Ok resp)
       /\ status resp = 400%Z
       /\ status resp <> 503%Z
       /\ body resp = error_body "Missing 'question' in request body"
       /\ answer_of (body resp) = None.
Proof.
  intros req. split; [now left|].
  eexists. split; [reflexivity|]. repeat split. discriminate.
Qed.

(** C6 (amended) before the assets are loaded, at a request with a question
    and at one without, and at a failure of the embedding stage. *)
Lemma failure_responses_witness :
  (@answer_question_api (rag_up [] PNone) initializing (ask "What is TDS?")).2
  = Ok (answer_response
          "Server is still initializing. Please try again in a moment." [] 503)
  /\ (exists msg,
        @answer_question_api (rag_up [] PNone) initializing (post (PDict ∅))
        = ([], Ok (error_response msg 400)))
  /\ exists log resp,
       @answer_question_api (rag_embedding_down connection_error) ready (ask "What is TDS?")
       = (log, Ok resp)
       /\ links_of (body resp) = Some [] /\ status resp = 500%Z.
Proof.
  split; [|split].
  - destruct (@failure_responses (rag_up [] PNone) initializing (ask "What is TDS?"))
      as (_ & Hinit & _).
    rewrite Hinit; [reflexivity | now left | reflexivity | reflexivity].
  - destruct (@failure_responses (rag_up [] PNone) initializing (post (PDict ∅)))
      as (_ & _ & Hbad & _).
    apply Hbad; [now left|]. right. exists ∅. split; [reflexivity | now left].
  - destruct (@failure_responses (rag_embedding_down connection_error) ready
                (ask "What is TDS?")) as (Hfail & _).
    destruct (Hfail Embedding connection_error) as (log & resp & H1 & _ & H3 & H4 & _).
    { eapply fails_embedding; [constructor; reflexivity | reflexivity]. }
    exists log, resp. auto.
Defined.

(** C8 at three retrieved documents. *)
Lemma fallback_links_nonempty_witness :
  let docs := [doc "https://a" "alpha"; doc "https://b" "bravo"; doc "https://c" "delta"] in
  docs <> [] /\ Forall has_url docs
  /\ @fallback_links_loop (rag_up docs PNone) (take (min 2 (length docs)) docs) [] <> Ok [].
Proof.
  intros docs.
  assert (Hne : docs <> []) by discriminate.
  assert (Hurl : Forall has_url docs).
  { repeat constructor; eexists; reflexivity. }
  split; [exact Hne|]. split; [exact Hurl|].
  exact (proj1 (@fallback_links_nonempty (rag_up docs PNone) docs Hne Hurl)).
Defined.

(** C9 (counterexample). A JSON request whose body is the array [[1, 2]]
    holds no question. While the index and the metadata are not loaded the
    handler gives it no response with status 400: [AttributeError] leaves
    the handler at line 36. *)
Lemma non_object_body_raises :
  let req := post (PList [PInt 1; PInt 2]) in
  is_json req = true
  /\ @not_ready (rag_up [] PNone) initializing
  /\ @answer_question_api (rag_up [] PNone) initializing req
     = ([], Raise (AttributeError "'list' object has no attribute 'get'"))
  /\ ~ exists log msg,
        @answer_question_api (rag_up [] PNone) initializing req
        = (log, Ok (error_response msg 400)).
Proof.
  intros req. split; [reflexivity|]. split; [now left|]. split; [reflexivity|].
  intros (log & msg & H). discriminate H.
Qed.

(** C9 (amended) at a request whose body is an object without a question
    and that arrives before the assets are loaded. *)
Lemma validation_precedes_readiness_witness :
  let req := post (PDict ∅) in
  no_question req
  /\ exists msg,
       @answer_question_api (rag_up [] PNone) initializing req
       = ([], Ok (error_response msg 400)).
Proof.
  intros req.
  assert (Hq : no_question req).
  { exists ∅. split; [reflexivity | now left]. }
  split; [exact Hq|].
  exact (proj1 (@validation_precedes_readiness (rag_up [] PNone) initializing req)
               (or_intror Hq)).
Defined.

End HandlerExamples.

(** ** Further properties of the compaction script *)

Section CompressMore.
Import Compress CompressMain.
Context {V : Type}.
Implicit Types (metadata : list (gmap string V)) (doc : gmap string V).

Lemma strip_embeddings_count metadata (n : nat) :
  (strip_embeddings metadata n).2 = n + with_embedding metadata.
Proof.
  unfold with_embedding.
  revert n; induction metadata as [|doc rest IH]; intros n; simpl; [lia|].
  rewrite filter_cons. case_bool_decide as Hk.
  - specialize (IH (S n)). destruct (strip_embeddings rest (S n)) as [rest' m].
    rewrite decide_True by exact Hk. simpl in *. lia.
  - specialize (IH n). destruct (strip_embeddings rest n) as [rest' m].
    rewrite decide_False by exact Hk. simpl in *. lia.
Qed.

Lemma with_embedding_le metadata : with_embedding metadata <= length metadata.
Proof. unfold with_embedding. apply length_filter. Qed.

Lemma with_embedding_zero metadata :
  with_embedding metadata = 0
  <-> Forall (fun doc => doc !! "embedding" = None) metadata.
Proof.
  unfold with_embedding. induction metadata as [|doc rest IH]; simpl.
  - split; [constructor | reflexivity].
  - rewrite filter_cons. destruct (decide (is_Some (doc !! "embedding"))) as [Hk|Hk].
    + split; [discriminate|]. intros Hall. inversion Hall as [|? ? Hd _]; subst.
      rewrite Hd in Hk. now destruct Hk.
    + rewrite IH. apply eq_None_not_Some in Hk. split.
      * intros Hall. now constructor.
      * intros Hall. now inversion Hall.
Qed.

(** What the script does once the input file has been read. *)
Lemma run_loaded (fs : file_system V) (input_filepath output_filepath : string) metadata :
  fs_load fs input_filepath = Loaded metadata ->
  remove_embeddings_from_metadata_json fs input_filepath output_filepath =
    let metadata' := delete "embedding" <$> metadata in
    let log := [RLoading; RLoaded (length metadata);
                RRemoved (with_embedding metadata); RSaving] in
    match fs_save fs output_filepath metadata' with
    | SaveDone => mk_run None (Some metadata') (log ++ [RSaved])
    | SaveFailed dumped e =>
        mk_run (Some 1%Z) (if dumped then Some metadata' else None)
               (log ++ [RError ("An error occurred while saving the file: " +:+ exc_str e)])
    end.
Proof.
  intros Hload. unfold remove_embeddings_from_metadata_json. rewrite Hload.
  pose proof (strip_embeddings_docs metadata 0) as Hd.
  pose proof (strip_embeddings_count metadata 0) as Hc.
  destruct (strip_embeddings metadata 0) as [metadata' n]. simpl in Hd, Hc.
  now subst.
Qed.

(** X1. The number the script reports as removed is the number of input
    documents that carry the key [embedding]; it is at most the number of
    documents, which the script reports as loaded. *)
Theorem reported_counts (fs : file_system V)
    (input_filepath output_filepath : string) metadata :
  fs_load fs input_filepath = Loaded metadata ->
  let r := remove_embeddings_from_metadata_json fs input_filepath output_filepath in
  take 4 (reports r)
  = [RLoading; RLoaded (length metadata); RRemoved (with_embedding metadata); RSaving]
  /\ with_embedding metadata <= length metadata.
Proof.
  intros Hload r. subst r. rewrite (run_loaded _ _ _ _ Hload).
  split; [|apply with_embedding_le].
  cbv zeta. now destruct (fs_save fs output_filepath _).
Qed.

(** X2. The loop counts zero modified documents exactly when it returns the
    list it was given. *)
Theorem zero_count_iff_unchanged metadata :
  (strip_embeddings metadata 0).2 = 0 <-> (strip_embeddings metadata 0).1 = metadata.
Proof.
  rewrite strip_embeddings_count, strip_embeddings_docs. simpl.
  rewrite with_embedding_zero. split.
  - intros Hall. induction Hall as [|doc rest Hd _ IH]; [reflexivity|].
    rewrite fmap_cons, IH. f_equal. now apply delete_id.
  - induction metadata as [|doc rest IH]; [constructor|].
    rewrite fmap_cons. intros [= Hd Hrest]. constructor; [|now apply IH].
    rewrite <- Hd. apply lookup_delete_eq.
Qed.

(** X3. Error behaviour of the script. When the input file is not found,
    does not decode, or loading it raises otherwise, the script exits with
    code 1, writes nothing and does not get as far as saving. When the file
    holds a list of documents, the script ends without calling [sys.exit]
    exactly when saving the stripped list completes; when saving raises, it
    exits with code 1. *)
Theorem script_exit (fs : file_system V) (input_filepath output_filepath : string) :
  let r := remove_embeddings_from_metadata_json fs input_filepath output_filepath in
  (fs_load fs input_filepath = FileNotFoundError
   \/ (exists e, fs_load fs input_filepath = JSONDecodeError e)
   \/ (exists e, fs_load fs input_filepath = LoadFailed e) ->
   exit_code r = Some 1%Z /\ written r = None /\ ~ In RSaving (reports r))
  /\ (forall metadata,
        fs_load fs input_filepath = Loaded metadata ->
        (exit_code r = None
         <-> fs_save fs output_filepath (delete "embedding" <$> metadata) = SaveDone)
        /\ (exit_code r <> None -> exit_code r = Some 1%Z)
        /\ (exit_code r = None ->
            written r = Some (delete "embedding" <$> metadata))).
Proof.
  intros r. subst r. split.
  - unfold remove_embeddings_from_metadata_json.
    intros [Hl | [[e Hl] | [e Hl]]]; rewrite Hl; simpl;
      (split; [reflexivity|]; split; [reflexivity|]);
      intros [H | [H | []]]; discriminate H.
  - intros metadata Hload. rewrite (run_loaded _ _ _ _ Hload). cbv zeta.
    destruct (fs_save fs output_filepath _) as [|dumped e]; simpl.
    + split; [tauto|]. split; [intros H; now destruct H | reflexivity].
    + split; [split; discriminate|]. split; [reflexivity | discriminate].
Qed.


End CompressMore.

(** ** Further facts about the string primitives *)

Section StripFacts.
Import PyStr.

Lemma lstrip_leading (s : string) : leading_space (lstrip s) = false.
Proof.
  induction s as [|c s IH]; simpl; [reflexivity|].
  destruct (isspace c) eqn:Hc; [exact IH | simpl; exact Hc].
Qed.

Lemma rstrip_leading (s : string) :
  leading_space s = false -> leading_space (rstrip s) = false.
Proof.
  destruct s as [|c s]; simpl; [reflexivity|]. intros Hc.
  destruct (rstrip s); simpl; rewrite ?Hc; simpl; auto.
Qed.

Lemma rstrip_trailing (s : string) : trailing_space (rstrip s) = false.
Proof.
  unfold trailing_space. induction s as [|c s IH]; simpl; [reflexivity|].
  destruct (rstrip s) as [|d r] eqn:Hr.
  - destruct (isspace c) eqn:Hc; simpl; [reflexivity | exact Hc].
  - exact IH.
Qed.

(** The result of [strip] neither begins nor ends with whitespace. *)
Lemma strip_trimmed (s : string) :
  leading_space (strip s) = false /\ trailing_space (strip s) = false.
Proof.
  unfold strip. split; [apply rstrip_leading, lstrip_leading | apply rstrip_trailing].
Qed.

Lemma contains_lstrip (c : ascii) (s : string) :
  contains c s = false -> contains c (lstrip s) = false.
Proof.
  induction s as [|a s IH]; simpl; [reflexivity|]. intros Hc.
  apply orb_false_elim in Hc as [Ha Hs].
  destruct (isspace a); [now apply IH | simpl; now rewrite Ha, Hs].
Qed.

Lemma contains_rstrip (c : ascii) (s : string) :
  contains c s = false -> contains c (rstrip s) = false.
Proof.
  induction s as [|a s IH]; simpl; [reflexivity|]. intros Hc.
  apply orb_false_elim in Hc as [Ha Hs]. specialize (IH Hs).
  destruct (rstrip s) as [|d r].
  - destruct (isspace a); simpl; [reflexivity | now rewrite Ha].
  - simpl in *. now rewrite Ha, IH.
Qed.

Lemma contains_replace (a b : ascii) (s : string) :
  a <> b -> contains a (replace a b s) = false.
Proof.
  intros Hab. induction s as [|c s IH]; simpl; [reflexivity|].
  rewrite IH, orb_false_r. destruct (Ascii.eqb_spec c a) as [->|Hc].
  - now apply Ascii.eqb_neq.
  - now apply Ascii.eqb_neq.
Qed.

(** Line 108 leaves no newline in the answer. *)
Lemma normalised_no_newline (s : string) :
  contains newline (strip (replace newline space s)) = false.
Proof.
  unfold strip. apply contains_rstrip, contains_lstrip, contains_replace.
  discriminate.
Qed.

Lemma length_snippet (cleaned : string) : String.length (snippet cleaned) <= 153.
Proof.
  destruct (Nat.le_gt_cases (String.length cleaned) 150) as [Hl|Hl].
  - rewrite (snippet_short _ Hl). lia.
  - now apply length_snippet_long.
Qed.

End StripFacts.

(** ** Further properties of the request handler *)

Section HandlerMore.
Context `{R : Rag}.
Import PyStr App Pipeline.

(** Every run of the handler is of one of nine kinds. *)
Lemma handler_cases g req :
  (is_json req = false
   /\ answer_question_api g req = ([], Ok (error_response "Request must be JSON" 400)))
  \/ (is_json req = true
      /\ exists e, get_json req = Raise e /\ answer_question_api g req = ([], Raise e))
  \/ (is_json req = true
      /\ exists data, get_json req = Ok data /\ (forall d, data <> PDict d)
           /\ answer_question_api g req = ([], Raise (no_attribute data "get")))
  \/ (is_json req = true /\ (exists d, get_json req = Ok (PDict d))
      /\ truthy (question_of req) = false
      /\ answer_question_api g req
         = ([], Ok (error_response "Missing 'question' in request body" 400)))
  \/ (is_json req = true /\ truthy (question_of req) = true /\ not_ready g
      /\ answer_question_api g req = ([], Ok initializing_response))
  \/ (is_json req = true /\ truthy (question_of req) = true /\ is_ready g
      /\ exists e, image_url_for_llm (image_of req) = Raise e
           /\ answer_question_api g req = ([], Raise e))
  \/ (exists s e, stage_fails g req s e
        /\ answer_question_api g req
           = ([stage_log s +:+ exc_str e],
              Ok (answer_response (stage_answer s +:+ exc_str e) [] 500)))
  \/ (retrieves g req []
      /\ answer_question_api g req = ([], Ok no_information_response))
  \/ (exists index metadata image_url q_embed docs raw,
        enters_pipeline g req index metadata image_url
        /\ get_embedding (question_of req) = Ok q_embed
        /\ retrieve_and_prioritize_documents q_embed index metadata 750 5 = Ok docs
        /\ docs <> []
        /\ completes req docs image_url = Ok raw
        /\ answer_question_api g req = post_process raw docs).
Proof.
  destruct (is_json req) eqn:Hjson.
  2:{ left. split; [reflexivity|]. unfold answer_question_api. now rewrite Hjson. }
  right. destruct (truthy (question_of req)) eqn:Hq.
  2:{ destruct (handler_falsy g req Hjson Hq)
        as [[Hd H] | [(e & He & H) | (data & Hd & Hn & H)]].
      - right. right. left. auto.
      - left. split; [reflexivity|]. eauto.
      - right. left. split; [reflexivity|]. eauto. }
  do 3 right.
  assert (Hrun : answer_question_api g req
                 = answer_question g (question_of req) (image_of req))
    by now apply handler_valid.
  destruct (rag_index g) as [index|] eqn:Hidx.
  2:{ left. repeat split; [now left|]. rewrite Hrun. unfold answer_question.
      now rewrite Hq, Hidx. }
  destruct (rag_metadata g) as [metadata|] eqn:Hmd.
  2:{ left. repeat split; [now right|]. rewrite Hrun. unfold answer_question.
      now rewrite Hq, Hidx, Hmd. }
  right. destruct (image_url_for_llm (image_of req)) as [image_url|e] eqn:Himg.
  2:{ left. repeat split; [rewrite Hidx; eauto | rewrite Hmd; eauto|].
      exists e. split; [reflexivity|]. rewrite Hrun. unfold answer_question.
      now rewrite Hq, Hidx, Hmd, Himg. }
  right.
  assert (He : enters_pipeline g req index metadata image_url) by now constructor.
  destruct (get_embedding (question_of req)) as [q_embed|e] eqn:Hemb.
  2:{ left. exists Embedding, e.
      assert (Hf : stage_fails g req Embedding e) by (econstructor; eauto).
      split; [exact Hf | now apply handler_stage_fails]. }
  destruct (retrieve_and_prioritize_documents q_embed index metadata 750 5)
    as [docs|e] eqn:Hret.
  2:{ left. exists Retrieval, e.
      assert (Hf : stage_fails g req Retrieval e) by (econstructor; eauto).
      split; [exact Hf | now apply handler_stage_fails]. }
  assert (Hr : retrieves g req docs) by (econstructor; eauto).
  destruct docs as [|d docs].
  { right. left. split; [exact Hr|].
    rewrite (handler_enters _ _ _ _ _ He), Hemb, Hret. reflexivity. }
  destruct (completes req (d :: docs) image_url) as [raw|e] eqn:Hc.
  2:{ left. exists Completion, e.
      assert (Hf : stage_fails g req Completion e) by (econstructor; eauto; discriminate).
      split; [exact Hf | now apply handler_stage_fails]. }
  right. right. exists index, metadata, image_url, q_embed, (d :: docs), raw.
  repeat split; try assumption; try discriminate; try (destruct He; assumption).
  rewrite (handler_enters _ _ _ _ _ He), Hemb, Hret, Hc. reflexivity.
Qed.

(** *** Post-processing *)

Lemma normalised_response_inv (answer_data : pyval) (resp : response) :
  normalised_response answer_data = Ok resp ->
  exists d s,
    answer_data = PDict d /\ d !! "answer" = Some (PStr s)
    /\ resp = mk_response (<["answer" := PStr (strip (replace newline space s))]> d) 200.
Proof.
  unfold normalised_response. destruct answer_data as [| | | | |l|d]; try discriminate.
  unfold dict_getitem. destruct (d !! "answer") as [a|] eqn:Ha; simpl; [|discriminate].
  destruct a as [| | | |s| |]; try discriminate. intros [= <-].
  exists d, s. auto.
Qed.

Lemma fallback_response_inv (docs : list dict) (resp : response) :
  fallback_response docs = Ok resp ->
  exists l,
    fallback_links_loop (take (min 2 (length docs)) docs) [] = Ok l
    /\ resp = mk_response
                (answer_body (strip (fallback_answer_text l)) (map link_dict l)) 200.
Proof.
  unfold fallback_response.
  destruct (fallback_links_loop _ []) as [l|e]; unfold bind; [|discriminate].
  intros [= <-]. now exists l.
Qed.

Lemma post_process_inv (raw : string) (docs : list dict) log (r : result response) :
  post_process raw docs = (log, r) ->
  (exists e, clean_json_response raw docs = Raise e /\ log = [] /\ r = Raise e)
  \/ exists answer_data,
       clean_json_response raw docs = Ok answer_data
       /\ ((exists e, answer_missing answer_data = Raise e /\ log = [] /\ r = Raise e)
           \/ (answer_missing answer_data = Ok true
               /\ log = ["WARNING: LLM returned malformed or empty answer. Raw: " +:+ raw]
               /\ r = fallback_response docs)
           \/ (answer_missing answer_data = Ok false
               /\ log = [] /\ r = normalised_response answer_data)).
Proof.
  unfold post_process.
  destruct (clean_json_response raw docs) as [ad|e].
  - intros Hp. right. exists ad. split; [reflexivity|].
    destruct (answer_missing ad) as [[]|e]; injection Hp as <- <-.
    + right. left. auto.
    + right. right. auto.
    + left. eauto.
  - intros [= <- <-]. left. eauto.
Qed.

Lemma take_min_length {A} (n : nat) (l : list A) :
  take (min n (length l)) l = take n l.
Proof.
  destruct (Nat.le_gt_cases n (length l)) as [Hn|Hn].
  - now rewrite Nat.min_l.
  - rewrite Nat.min_r by lia. rewrite !take_ge by lia. reflexivity.
Qed.

Lemma fallback_links_loop_cites (docs : list dict) (acc l : list fallback_link) :
  fallback_links_loop docs acc = Ok l ->
  exists l', l = (acc ++ l')%list /\ Forall2 cites docs l'.
Proof.
  revert acc; induction docs as [|doc rest IH]; intros acc; simpl.
  - intros [= <-]. exists []. split; [now rewrite app_nil_r | constructor].
  - destruct (clean_content_for_prompt _) as [cleaned|e] eqn:Hc; simpl; [|discriminate].
    unfold dict_getitem. destruct (doc !! "url") as [url|] eqn:Hu; simpl; [|discriminate].
    intros Hl. destruct (IH _ Hl) as (l' & -> & Hall).
    exists (mk_link url (snippet cleaned) :: l').
    split; [now rewrite <- app_assoc|]. constructor; [|exact Hall].
    split; [exact Hu|]. now exists cleaned.
Qed.

Lemma fallback_links_loop_no_url (docs : list dict) (acc : list fallback_link) :
  Forall cleans docs -> ~ Forall has_url docs ->
  fallback_links_loop docs acc = Raise (KeyError "url").
Proof.
  intros Hc; revert acc; induction Hc as [|doc rest [cleaned Hd] _ IH];
    intros acc Hno; simpl.
  - destruct Hno. constructor.
  - rewrite Hd. simpl. unfold dict_getitem.
    destruct (doc !! "url") as [url|] eqn:Hu; simpl; [|reflexivity].
    apply IH. intros Hall. apply Hno. constructor; [|exact Hall].
    unfold has_url. rewrite Hu. eauto.
Qed.

(** *** Status codes and bodies *)

(** Closes a goal from a run [Hrun] whose outcome cannot have the status
    that [Hs] gives it. *)
Ltac status_absurd Hrun Hs :=
  first [ discriminate Hrun
        | injection Hrun as _ <-; discriminate Hs
        | apply post_process_status in Hrun; congruence ].

(** X5. The status of every response of the handler is 200, 400, 500 or 503. *)
Theorem handler_status g req log resp :
  answer_question_api g req = (log, Ok resp) ->
  status resp = 200%Z \/ status resp = 400%Z
  \/ status resp = 500%Z \/ status resp = 503%Z.
Proof.
  intros Hrun.
  destruct (handler_cases g req)
    as [[_ H] | [(_ & e & _ & H) | [(_ & data & _ & _ & H) | [(_ & _ & _ & H)
       | [(_ & _ & _ & H) | [(_ & _ & _ & e & _ & H) | [(s & e & _ & H)
       | [[_ H] | (index & metadata & u & v & docs & raw & _ & _ & _ & _ & _ & H)]]]]]]]];
    rewrite H in Hrun; try discriminate Hrun;
    try (injection Hrun as _ <-; simpl; tauto).
  left. now apply post_process_status in Hrun.
Qed.

(** X6. The handler answers 400 exactly when the request is not JSON, or
    its body is an object whose question is falsy (missing, null, empty,
    zero or false); the body of the response is then [{"error": msg}],
    without answer and without links, and nothing is printed. *)
Theorem bad_request_iff g req :
  ((exists log resp, answer_question_api g req = (log, Ok resp) /\ status resp = 400%Z)
   <-> is_json req = false
       \/ ((exists d, get_json req = Ok (PDict d))
           /\ truthy (question_of req) = false))
  /\ (forall log resp,
        answer_question_api g req = (log, Ok resp) -> status resp = 400%Z ->
        log = []
        /\ (exists msg, body resp = error_body msg)
        /\ answer_of (body resp) = None /\ links_of (body resp) = None).
Proof.
  destruct (handler_cases g req)
    as [[Hj H] | [(Hj & e & Hg & H) | [(Hj & data & Hg & Hn & H) | [(Hj & Hd & Hq & H)
       | [(Hj & Hq & _ & H) | [(Hj & Hq & _ & e & _ & H) | [(s & e & Hf & H)
       | [[Hr H] | (index & metadata & u & v & docs & raw & He & _ & _ & _ & _ & H)]]]]]]]].
  - split; [split; [auto | intros _; eexists _, _; split; [exact H | reflexivity]]|].
    intros log resp Hrun _. rewrite H in Hrun. injection Hrun as <- <-.
    repeat split. now eexists.
  - split; [split|].
    + intros (log & resp & Hrun & Hs). rewrite H in Hrun. discriminate Hrun.
    + intros [Hc | [[d Hd] _]]; congruence.
    + intros log resp Hrun Hs. rewrite H in Hrun. discriminate Hrun.
  - split; [split|].
    + intros (log & resp & Hrun & Hs). rewrite H in Hrun. discriminate Hrun.
    + intros [Hc | [[d Hd] _]]; [congruence|].
      rewrite Hd in Hg. injection Hg as <-. now destruct (Hn d).
    + intros log resp Hrun Hs. rewrite H in Hrun. discriminate Hrun.
  - split; [split; [auto | intros _; eexists _, _; split; [exact H | reflexivity]]|].
    intros log resp Hrun _. rewrite H in Hrun. injection Hrun as <- <-.
    repeat split. now eexists.
  - split; [split|].
    + intros (log & resp & Hrun & Hs). rewrite H in Hrun. status_absurd Hrun Hs.
    + intros [Hc | [_ Hc]]; congruence.
    + intros log resp Hrun Hs. rewrite H in Hrun. status_absurd Hrun Hs.
  - split; [split|].
    + intros (log & resp & Hrun & Hs). rewrite H in Hrun. status_absurd Hrun Hs.
    + intros [Hc | [_ Hc]]; congruence.
    + intros log resp Hrun Hs. rewrite H in Hrun. status_absurd Hrun Hs.
  - assert (Hv : is_json req = true /\ truthy (question_of req) = true).
    { destruct Hf as [? ? ? ? [] | ? ? ? ? ? [] | ? ? ? ? ? ? []]; auto. }
    destruct Hv as [Hj Hq]. split; [split|].
    + intros (log & resp & Hrun & Hs). rewrite H in Hrun. status_absurd Hrun Hs.
    + intros [Hc | [_ Hc]]; congruence.
    + intros log resp Hrun Hs. rewrite H in Hrun. status_absurd Hrun Hs.
  - assert (Hv : is_json req = true /\ truthy (question_of req) = true).
    { destruct Hr as [? ? ? ? ? []]; auto. }
    destruct Hv as [Hj Hq]. split; [split|].
    + intros (log & resp & Hrun & Hs). rewrite H in Hrun. status_absurd Hrun Hs.
    + intros [Hc | [_ Hc]]; congruence.
    + intros log resp Hrun Hs. rewrite H in Hrun. status_absurd Hrun Hs.
  - destruct He as [Hj Hq _ _ _]. split; [split|].
    + intros (log & resp & Hrun & Hs). rewrite H in Hrun. status_absurd Hrun Hs.
    + intros [Hc | [_ Hc]]; congruence.
    + intros log resp Hrun Hs. rewrite H in Hrun. status_absurd Hrun Hs.
Qed.

(** X7. A response with status 500 is only ever the report of a failed stage:
    its answer is the sentence of that stage followed by the text of the
    exception, its links are empty, and the one line printed to stderr names
    the stage and carries the same text. *)
Theorem internal_error_only_from_stage g req log resp :
  answer_question_api g req = (log, Ok resp) -> status resp = 500%Z ->
  exists s e,
    stage_fails g req s e
    /\ log = [stage_log s +:+ exc_str e]
    /\ resp = answer_response (stage_answer s +:+ exc_str e) [] 500.
Proof.
  intros Hrun Hs.
  destruct (handler_cases g req)
    as [[_ H] | [(_ & e & _ & H) | [(_ & data & _ & _ & H) | [(_ & _ & _ & H)
       | [(_ & _ & _ & H) | [(_ & _ & _ & e & _ & H) | [(s & e & Hf & H)
       | [[_ H] | (index & metadata & u & v & docs & raw & _ & _ & _ & _ & _ & H)]]]]]]]];
    rewrite H in Hrun; try status_absurd Hrun Hs.
  injection Hrun as <- <-. now exists s, e.
Qed.

(** X8. An exception leaves the handler only on a JSON request, and in one
    of four ways: it is the exception of [get_json] on a body that does not
    parse; it is the [AttributeError] of [data.get] on a body that is not an
    object; it is raised by the inspection of the image, the question being
    truthy and both globals set; or it is raised after the model has
    answered, by the post-processing of its output. Nothing is printed in
    the first three cases, and an exception of the embedding, retrieval or
    completion calls never leaves the handler. *)
Theorem escaping_exception g req log e :
  answer_question_api g req = (log, Raise e) ->
  is_json req = true
  /\ ((get_json req = Raise e /\ log = [])
      \/ (exists data,
            get_json req = Ok data /\ (forall d, data <> PDict d)
            /\ e = no_attribute data "get" /\ log = [])
      \/ (truthy (question_of req) = true /\ is_ready g
          /\ image_url_for_llm (image_of req) = Raise e /\ log = [])
      \/ (exists index metadata image_url q_embed docs raw,
            enters_pipeline g req index metadata image_url
            /\ get_embedding (question_of req) = Ok q_embed
            /\ retrieve_and_prioritize_documents q_embed index metadata 750 5 = Ok docs
            /\ docs <> []
            /\ completes req docs image_url = Ok raw
            /\ post_process raw docs = (log, Raise e))).
Proof.
  intros Hrun.
  destruct (handler_cases g req)
    as [[_ H] | [(Hj & e' & Hg & H) | [(Hj & data & Hg & Hn & H) | [(_ & _ & _ & H)
       | [(_ & _ & _ & H) | [(Hj & Hq & Hrd & e' & Hi & H) | [(s & e' & _ & H)
       | [[_ H] | (index & metadata & u & v & docs & raw & He & Hemb & Hret & Hne & Hc & H)]]]]]]]];
    rewrite H in Hrun; try discriminate Hrun.
  - injection Hrun as <- <-. split; [exact Hj|]. left. auto.
  - injection Hrun as <- <-. split; [exact Hj|]. right. left. exists data. auto.
  - injection Hrun as <- <-. split; [exact Hj|]. right. right. left. auto.
  - split; [now destruct He|]. do 3 right.
    exists index, metadata, u, v, docs, raw. auto 10.
Qed.

(** X9. The answer of every response with status 200 is a string that neither
    begins nor ends with whitespace. *)
Theorem success_answer_trimmed g req log resp :
  answer_question_api g req = (log, Ok resp) -> status resp = 200%Z ->
  exists a,
    answer_of (body resp) = Some a
    /\ leading_space a = false /\ trailing_space a = false.
Proof.
  intros Hrun Hs.
  destruct (handler_cases g req)
    as [[_ H] | [(_ & e & _ & H) | [(_ & data & _ & _ & H) | [(_ & _ & _ & H)
       | [(_ & _ & _ & H) | [(_ & _ & _ & e & _ & H) | [(s & e & _ & H)
       | [[_ H] | (index & metadata & u & v & docs & raw & _ & _ & _ & _ & _ & H)]]]]]]]];
    rewrite H in Hrun; try discriminate Hrun;
    try (injection Hrun as _ <-; discriminate Hs).
  - injection Hrun as _ <-. eexists. split; [reflexivity|]. split; reflexivity.
  - destruct (post_process_inv _ _ _ _ Hrun)
      as [(e & _ & _ & [=]) | (ad & _ & [(e & _ & _ & [=]) | [(_ & _ & Hr) | (_ & _ & Hr)]])].
    + symmetry in Hr. destruct (fallback_response_inv _ _ Hr) as (l & _ & ->).
      eexists. split; [reflexivity|]. apply strip_trimmed.
    + symmetry in Hr. destruct (normalised_response_inv _ _ Hr) as (d & a & _ & _ & ->).
      eexists. split; [|apply strip_trimmed]. unfold answer_of. simpl.
      now rewrite lookup_insert_eq.
Qed.

(** *** The two ways of answering *)

Lemma handler_post_process g req index metadata image_url q_embed docs raw :
  enters_pipeline g req index metadata image_url ->
  get_embedding (question_of req) = Ok q_embed ->
  retrieve_and_prioritize_documents q_embed index metadata 750 5 = Ok docs ->
  docs <> [] ->
  completes req docs image_url = Ok raw ->
  answer_question_api g req = post_process raw docs.
Proof.
  intros He Hemb Hret Hne Hc.
  rewrite (handler_enters _ _ _ _ _ He), Hemb, Hret.
  destruct docs; [contradiction|]. now rewrite Hc.
Qed.

Lemma truthy_dict_with (d : dict) (k : string) (v : pyval) :
  d !! k = Some v -> truthy (PDict d) = true.
Proof.
  intros Hk. simpl. apply negb_true_iff, Nat.eqb_neq. intros Hsize.
  apply map_size_empty_iff in Hsize. subst d. now rewrite lookup_empty in Hk.
Qed.

(** X10. On a request for which documents were retrieved and the model
    answered, when [clean_json_response] returns on the model's output a
    dictionary whose answer is a non-empty string, the handler responds with
    status 200 and that dictionary with its answer normalised: newlines
    replaced by spaces and whitespace stripped at both ends, so the answer
    holds no newline. Every other key of the dictionary reaches the caller
    unchanged, and nothing is printed. *)
Theorem normalised_answer g req index metadata image_url q_embed docs raw d s :
  enters_pipeline g req index metadata image_url ->
  get_embedding (question_of req) = Ok q_embed ->
  retrieve_and_prioritize_documents q_embed index metadata 750 5 = Ok docs ->
  docs <> [] ->
  completes req docs image_url = Ok raw ->
  clean_json_response raw docs = Ok (PDict d) ->
  d !! "answer" = Some (PStr s) -> s <> "" ->
  exists resp,
    answer_question_api g req = ([], Ok resp)
    /\ status resp = 200%Z
    /\ answer_of (body resp) = Some (strip (replace newline space s))
    /\ contains newline (strip (replace newline space s)) = false
    /\ forall k, k <> "answer" -> body resp !! k = d !! k.
Proof.
  intros He Hemb Hret Hne Hc Hclean Ha Hs.
  rewrite (handler_post_process _ _ _ _ _ _ _ _ He Hemb Hret Hne Hc).
  unfold post_process. rewrite Hclean. unfold answer_missing.
  rewrite (truthy_dict_with _ _ _ Ha).
  cbn [negb]. unfold dict_get. rewrite Ha.
  change (default PNone (Some (PStr s))) with (PStr s).
  rewrite (truthy_nonempty s Hs). cbn [negb].
  unfold normalised_response, dict_getitem. rewrite Ha. cbn [bind].
  eexists. split; [reflexivity|]. split; [reflexivity|].
  split; [unfold answer_of, jsonify; cbn [body]; now rewrite lookup_insert_eq|].
  split; [apply normalised_no_newline|].
  intros k Hk. unfold jsonify. cbn [body]. now rewrite lookup_insert_ne.
Qed.

(** X11. On a request for which documents were retrieved and the model
    answered, when the output of [clean_json_response] on the model's output
    is malformed or has no answer, a response of the handler has status 200
    and its links cite the first two retrieved documents (or the only one),
    in retrieval order: each link carries the url of its document and, as
    text, the snippet of its cleaned content, of at most 153 characters. The
    warning with the raw output of the model is what is printed. *)
Theorem fallback_cites_first_documents
    g req index metadata image_url q_embed docs raw answer_data log resp :
  enters_pipeline g req index metadata image_url ->
  get_embedding (question_of req) = Ok q_embed ->
  retrieve_and_prioritize_documents q_embed index metadata 750 5 = Ok docs ->
  docs <> [] ->
  completes req docs image_url = Ok raw ->
  clean_json_response raw docs = Ok answer_data ->
  answer_missing answer_data = Ok true ->
  answer_question_api g req = (log, Ok resp) ->
  log = ["WARNING: LLM returned malformed or empty answer. Raw: " +:+ raw]
  /\ status resp = 200%Z
  /\ exists l,
       links_of (body resp) = Some (map link_dict l)
       /\ Forall2 cites (take 2 docs) l
       /\ Forall (fun lk => String.length (link_text lk) <= 153) l.
Proof.
  intros He Hemb Hret Hne Hc Hclean Hm Hrun.
  rewrite (handler_post_process _ _ _ _ _ _ _ _ He Hemb Hret Hne Hc) in Hrun.
  unfold post_process in Hrun. rewrite Hclean, Hm in Hrun.
  injection Hrun as <- Hf. split; [reflexivity|].
  destruct (fallback_response_inv _ _ Hf) as (l & Hloop & ->).
  split; [reflexivity|]. rewrite take_min_length in Hloop.
  destruct (fallback_links_loop_cites _ _ _ Hloop) as (l' & -> & Hall).
  exists l'. split; [reflexivity|]. split; [exact Hall|].
  clear -Hall. induction Hall as [|d lk ds lks (_ & cleaned & _ & Ht) _ IH];
    constructor; [|exact IH].
  rewrite Ht. apply length_snippet.
Qed.

(** X12. Error behaviour of the fallback path when cleaning the content of the
    first two documents returns: it responds when both carry a url, and
    raises [KeyError('url')] when one of them does not. Documents after the
    second are not looked at. *)
Theorem fallback_missing_url (docs : list dict) :
  Forall cleans (take 2 docs) ->
  (Forall has_url (take 2 docs) -> exists resp, fallback_response docs = Ok resp)
  /\ (~ Forall has_url (take 2 docs) ->
      fallback_response docs = Raise (KeyError "url")).
Proof.
  intros Hc. unfold fallback_response. rewrite take_min_length. split.
  - intros Hu. destruct (fallback_links_loop_total (take 2 docs) [] Hu Hc) as [l ->].
    now eexists.
  - intros Hu. now rewrite (fallback_links_loop_no_url _ _ Hc Hu).
Qed.

(** *** The image of the request *)

(** X13. The image reference is absent exactly when the image value is falsy
    (missing, null, empty, zero or false); inspecting the image raises
    exactly when the value is truthy and not a string; and a reference is
    only ever built from a non-empty string. *)
Theorem image_value_cases (v : pyval) :
  (image_url_for_llm v = Ok None <-> truthy v = false)
  /\ ((exists e, image_url_for_llm v = Raise e)
      <-> truthy v = true /\ forall s, v <> PStr s)
  /\ (forall u, image_url_for_llm v = Ok (Some u) -> exists s, v = PStr s /\ s <> "").
Proof.
  unfold image_url_for_llm. destruct (truthy v) eqn:Ht.
  - destruct v as [| | | |s| |]; simpl in Ht; try discriminate;
      try (split; [split; discriminate | split;
             [split; [intros _; split; [reflexivity | discriminate] | intros _; eauto]
             | discriminate]]).
    assert (Hs : s <> "") by (intros ->; discriminate).
    destruct (startswith s "http://" || startswith s "https://");
      (split; [split; discriminate | split;
         [split; [intros [e [=]] | intros [_ Hn]; now destruct (Hn s)]
         | intros u _; eauto]]).
  - split; [split; auto | split; [split; [intros [e [=]] | intros [[=] _]] | discriminate]].
Qed.

(** X14. A valid request whose image is a truthy value that is not a string
    (a number, a list, an object) is not answered: once both globals are
    set, the [AttributeError] that names the type of the value leaves the
    handler before any stage is run and nothing is printed. *)
Theorem image_rejected g req :
  is_json req = true -> truthy (question_of req) = true -> is_ready g ->
  truthy (image_of req) = true -> (forall s, image_of req <> PStr s) ->
  answer_question_api g req
  = ([], Raise (no_attribute (image_of req) "startswith")).
Proof.
  intros Hj Hq [[index Hi] [metadata Hm]] Ht Hn.
  rewrite (handler_valid _ _ Hj Hq). unfold answer_question.
  rewrite Hq, Hi, Hm. simpl. unfold image_url_for_llm. rewrite Ht.
  destruct (image_of req) as [| | | |s| |]; try reflexivity. now destruct (Hn s).
Qed.

(** *** Start-up and the handler *)

(** X15. When loading returns an index and a metadata table, the process serves
    with them and no request ever receives status 503. When loading returns
    but one of the two is [None], the process serves all the same and every
    JSON request with a truthy question receives the initializing response. *)
Theorem serving_after_startup :
  (forall index metadata,
     load_index_and_metadata = Ok (Some index, Some metadata) ->
     exists g, startup.2 = Serving g
       /\ forall req log resp,
            answer_question_api g req = (log, Ok resp) -> status resp <> 503%Z)
  /\ (forall index metadata,
        load_index_and_metadata = Ok (index, metadata) ->
        index = None \/ metadata = None ->
        exists g, startup.2 = Serving g
          /\ forall req,
               is_json req = true -> truthy (question_of req) = true ->
               answer_question_api g req = ([], Ok initializing_response)).
Proof.
  split.
  - intros index metadata Hl. unfold startup. rewrite Hl. eexists. split; [reflexivity|].
    intros req log resp Hrun Hs.
    destruct (handler_503 _ _ _ _ Hrun Hs) as (_ & _ & [Hn|Hn] & _); discriminate.
  - intros index metadata Hl Hnone. unfold startup. rewrite Hl.
    eexists. split; [reflexivity|]. intros req Hj Hq.
    rewrite (handler_valid _ _ Hj Hq). unfold answer_question. rewrite Hq. simpl.
    destruct Hnone as [-> | ->]; [reflexivity | now destruct index].
Qed.

End HandlerMore.

(** ** The further properties at concrete inputs *)

Section MoreExamples.
Import PyStr App Pipeline Demo.

(** The counts reported for the sample file: two documents loaded, one
    embedding removed. *)
Lemma reported_counts_witness :
  take 4 (Compress.reports
            (Compress.remove_embeddings_from_metadata_json
               fs_sample "metadatas.json" "metadata.json"))
  = [Compress.RLoading; Compress.RLoaded 2; Compress.RRemoved 1; Compress.RSaving].
Proof.
  destruct (reported_counts fs_sample "metadatas.json" "metadata.json"
              metadata_sample eq_refl) as [Hr _].
  rewrite Hr. reflexivity.
Defined.

(** The status of the response to a question for which nothing is
    retrieved. *)
Lemma handler_status_witness :
  exists log resp,
    @answer_question_api (rag_up [] PNone) ready (ask "What is TDS?") = (log, Ok resp)
    /\ status resp = 200%Z.
Proof.
  eexists _, _. split; [reflexivity|].
  destruct (@handler_status (rag_up [] PNone) ready (ask "What is TDS?") _ _ eq_refl)
    as [H | [H | [H | H]]]; [exact H | discriminate H..].
Defined.

(** A failure of the embedding service is the origin of the 500 response. *)
Lemma internal_error_only_from_stage_witness :
  exists s e,
    @stage_fails (rag_embedding_down connection_error) ready (ask "What is TDS?") s e.
Proof.
  destruct (@internal_error_only_from_stage (rag_embedding_down connection_error)
              ready (ask "What is TDS?") _ _ eq_refl eq_refl) as (s & e & Hf & _).
  now exists s, e.
Defined.

(** A body that is an array, received before the assets are loaded: the
    exception of [data.get] leaves the handler. *)
Lemma escaping_exception_witness :
  is_json (post (PList [PInt 1; PInt 2])) = true
  /\ @answer_question_api (rag_up [] PNone) initializing (post (PList [PInt 1; PInt 2]))
     = ([], Raise (AttributeError "'list' object has no attribute 'get'")).
Proof.
  destruct (@escaping_exception (rag_up [] PNone) initializing
              (post (PList [PInt 1; PInt 2])) _ _ eq_refl) as [Hj _].
  split; [exact Hj | reflexivity].
Defined.

(** An image that is a number. *)
Lemma image_rejected_witness :
  @answer_question_api (rag_up [] PNone) ready (ask_with_image "What is TDS?" (PInt 5))
  = ([], Raise (AttributeError "'int' object has no attribute 'startswith'")).
Proof.
  rewrite (@image_rejected (rag_up [] PNone) ready
             (ask_with_image "What is TDS?" (PInt 5))); try reflexivity.
  - split; eexists; reflexivity.
  - intros s. discriminate.
Defined.

(** The answer of the fallback response for one retrieved document is
    trimmed. *)
Lemma success_answer_trimmed_witness :
  exists log resp a,
    @answer_question_api (rag_up [doc "https://a" "alpha"] PNone) ready (ask "What is TDS?")
    = (log, Ok resp)
    /\ answer_of (body resp) = Some a /\ trailing_space a = false.
Proof.
  eexists _, _.
  destruct (@success_answer_trimmed (rag_up [doc "https://a" "alpha"] PNone)
              ready (ask "What is TDS?") _ _ eq_refl eq_refl) as (a & Ha & _ & Ht).
  exists a. split; [reflexivity|]. split; [exact Ha | exact Ht].
Defined.

(** The sample output of [clean_json_response]: the answer loses its newline
    and its outer spaces, the further key is kept. *)
Lemma normalised_answer_witness :
  let docs := [doc "https://a" "alpha"] in
  exists resp,
    @answer_question_api (rag_up docs (PDict parsed_sample)) ready (ask "What is TDS?")
    = ([], Ok resp)
    /\ answer_of (body resp) = Some "Use uv. It is faster."
    /\ body resp !! "confidence" = Some (PInt 3).
Proof.
  intros docs.
  destruct (@normalised_answer (rag_up docs (PDict parsed_sample)) ready
              (ask "What is TDS?") tt tt None tt docs "not json" parsed_sample
              (" Use uv." +:+ String newline "It is faster. "))
    as (resp & Hrun & _ & Ha & _ & Hk);
    [constructor; reflexivity | reflexivity | reflexivity | discriminate
    | reflexivity | reflexivity | reflexivity | discriminate |].
  exists resp. split; [exact Hrun|]. split; [exact Ha|].
  rewrite Hk by discriminate. reflexivity.
Defined.

(** Three retrieved documents and a malformed output: the links cite the
    first two. *)
Lemma fallback_cites_first_documents_witness :
  let docs := [doc "https://a" "alpha"; doc "https://b" "bravo"; doc "https://c" "delta"] in
  exists log resp,
    @answer_question_api (rag_up docs PNone) ready (ask "What is TDS?") = (log, Ok resp)
    /\ log = ["WARNING: LLM returned malformed or empty answer. Raw: not json"]
    /\ links_of (body resp)
       = Some [link_dict (mk_link (PStr "https://a") "alpha");
               link_dict (mk_link (PStr "https://b") "bravo")].
Proof.
  intros docs.
  pose (l := [mk_link (PStr "https://a") "alpha"; mk_link (PStr "https://b") "bravo"]).
  exists ["WARNING: LLM returned malformed or empty answer. Raw: not json"],
         (mk_response
            (answer_body (strip (@fallback_answer_text (rag_up docs PNone) l))
                         (map link_dict l)) 200).
  assert (Hrun : @answer_question_api (rag_up docs PNone) ready (ask "What is TDS?")
                 = (["WARNING: LLM returned malformed or empty answer. Raw: not json"],
                    Ok (mk_response
                          (answer_body
                             (strip (@fallback_answer_text (rag_up docs PNone) l))
                             (map link_dict l)) 200))) by reflexivity.
  split; [exact Hrun|].
  assert (He : @enters_pipeline (rag_up docs PNone) ready (ask "What is TDS?")
                 tt tt None) by (constructor; reflexivity).
  assert (Hne : docs <> []) by discriminate.
  destruct (@fallback_cites_first_documents (rag_up docs PNone) ready
              (ask "What is TDS?") tt tt None tt docs "not json" PNone _ _
              He eq_refl eq_refl Hne eq_refl eq_refl eq_refl Hrun)
    as (Hlog & _ & l' & Hl & _).
  split; [exact Hlog | reflexivity].
Defined.

(** The second of three documents has no url: the fallback path raises, and
    it would not if only the third lacked one. *)
Lemma fallback_missing_url_witness :
  @fallback_response (rag_up [] PNone)
    [doc "https://a" "alpha"; doc_without_url "bravo"; doc "https://c" "delta"]
  = Raise (KeyError "url")
  /\ exists resp,
       @fallback_response (rag_up [] PNone)
         [doc "https://a" "alpha"; doc "https://b" "bravo"; doc_without_url "delta"]
       = Ok resp.
Proof.
  split.
  - apply (@fallback_missing_url (rag_up [] PNone)).
    + repeat constructor; eexists; reflexivity.
    + intros Hall. inversion Hall as [|? ? _ Hrest]; subst.
      inversion Hrest as [|? ? [v Hv] _]; subst. discriminate Hv.
  - apply (@fallback_missing_url (rag_up [] PNone)).
    + repeat constructor; eexists; reflexivity.
    + repeat constructor; eexists; reflexivity.
Defined.

End MoreExamples.

(** ** The text of the fallback answer and the errors of post-processing *)

Section PostProcessing.
Context `{R : Rag}.
Import PyStr App Pipeline.

Lemma append_empty_r (s : string) : s +:+ "" = s.
Proof.
  induction s as [|c s IH]; [reflexivity|]. rewrite append_cons. now rewrite IH.
Qed.

Lemma cite_links_lines (text : string) (links : list fallback_link) :
  cite_links text links = text +:+ citation_lines links.
Proof.
  unfold cite_links. revert text; induction links as [|l rest IH]; intros text; simpl.
  - now rewrite append_empty_r.
  - rewrite IH. unfold citation_line. now rewrite !append_assoc.
Qed.

(** X16. The answer of the fallback path agrees with its links: on a non-empty
    list of retrieved documents, whenever the path returns, the answer is
    the introduction followed by one citation line per returned link, in
    the order of the links, stripped of outer whitespace. *)
Theorem fallback_answer_lists_links (docs : list dict) (resp : response) :
  docs <> [] -> fallback_response docs = Ok resp ->
  exists l,
    l <> []
    /\ links_of (body resp) = Some (map link_dict l)
    /\ answer_of (body resp)
       = Some (strip (fallback_intro +:+ citation_lines l)).
Proof.
  intros Hne Hresp.
  destruct (fallback_response_cites docs resp Hne Hresp) as (l & Hl & _ & Hb).
  exists l. split; [exact Hl|]. rewrite Hb, cite_links_lines. split; reflexivity.
Qed.

(** X17. Errors of the post-processing, which no [try] block covers. Once
    the model has answered a request with retrieved documents: an exception
    of [clean_json_response] leaves the handler; so does the
    [AttributeError] that names the type of its output when that output is
    truthy but not a dictionary, and the one that names the type of the
    answer when the output is a dictionary whose answer is truthy but not a
    string. Nothing is printed in these cases. *)
Theorem post_processing_errors g req index metadata image_url q_embed docs raw :
  enters_pipeline g req index metadata image_url ->
  get_embedding (question_of req) = Ok q_embed ->
  retrieve_and_prioritize_documents q_embed index metadata 750 5 = Ok docs ->
  docs <> [] ->
  completes req docs image_url = Ok raw ->
  (forall e, clean_json_response raw docs = Raise e ->
     answer_question_api g req = ([], Raise e))
  /\ (forall answer_data,
        clean_json_response raw docs = Ok answer_data ->
        truthy answer_data = true -> (forall d, answer_data <> PDict d) ->
        answer_question_api g req = ([], Raise (no_attribute answer_data "get")))
  /\ (forall d a,
        clean_json_response raw docs = Ok (PDict d) ->
        d !! "answer" = Some a -> truthy a = true -> (forall s, a <> PStr s) ->
        answer_question_api g req = ([], Raise (no_attribute a "replace"))).
Proof.
  intros He Hemb Hret Hne Hc.
  rewrite (handler_post_process _ _ _ _ _ _ _ _ He Hemb Hret Hne Hc).
  unfold post_process. split; [|split].
  - intros e ->. reflexivity.
  - intros ad -> Ht Hn. unfold answer_missing. rewrite Ht. simpl.
    destruct ad as [| | | | | |d]; try reflexivity. now destruct (Hn d).
  - intros d a -> Ha Ht Hn. unfold answer_missing.
    rewrite (truthy_dict_with _ _ _ Ha). simpl.
    unfold dict_get. rewrite Ha. simpl. rewrite Ht. simpl.
    unfold dict_getitem. rewrite Ha. simpl.
    destruct a as [| | | |s| |]; try reflexivity. now destruct (Hn s).
Qed.

End PostProcessing.

Section PostProcessingExamples.
Import PyStr App Pipeline Demo.

(** The fallback answer for two retrieved documents. *)
Lemma fallback_answer_lists_links_witness :
  exists resp,
    @fallback_response (rag_up [] PNone)
      [doc "https://a" "alpha"; doc "https://b" "bravo"] = Ok resp
    /\ answer_of (body resp)
       = Some (strip (fallback_intro
                      +:+ @citation_lines (rag_up [] PNone)
                            [mk_link (PStr "https://a") "alpha";
                             mk_link (PStr "https://b") "bravo"])).
Proof.
  eexists. split; [reflexivity|].
  assert (Hne : [doc "https://a" "alpha"; doc "https://b" "bravo"] <> [])
    by discriminate.
  destruct (@fallback_answer_lists_links (rag_up [] PNone) _ _ Hne eq_refl)
    as (l & _ & Hl & Ha).
  injection Hl as Hl. reflexivity.
Defined.

(** The model's output is parsed to a list: [AttributeError] leaves the
    handler. *)
Lemma post_processing_errors_witness :
  let docs := [doc "https://a" "alpha"] in
  @answer_question_api (rag_up docs (PList [PStr "answer"])) ready (ask "What is TDS?")
  = ([], Raise (AttributeError "'list' object has no attribute 'get'")).
Proof.
  intros docs.
  destruct (@post_processing_errors (rag_up docs (PList [PStr "answer"]))
              ready (ask "What is TDS?") tt tt None tt docs "not json")
    as (_ & Hget & _);
    [constructor; reflexivity | reflexivity | reflexivity | discriminate | reflexivity |].
  rewrite (Hget (PList [PStr "answer"])); [reflexivity.. | discriminate].
Defined.

End PostProcessingExamples.
